(** * djpwr-app-settings: the settings accessor and its admin page

    A shallow embedding of [djpwr_app_settings/__init__.py],
    [djpwr_app_settings/admin.py] and [djpwr_app_settings/signals.py].
    Python values are an inductive type,
    exceptions are data, and every function that touches the database, the
    file storage or the logger is a computation over an explicit [World]
    that may end in [Raise].  The host framework (storage backend, model
    registry) is an interface; the theorems hold for every implementation
    of it, and a small in-memory implementation is used to run the code on
    concrete inputs. *)

From Stdlib Require Import String Ascii List ZArith Bool Lia.
From stdpp Require Import base list strings.

Open Scope string_scope.

(** ** Python values *)

(** The values a setting can hold or be assigned.  [VFile] is an instance
    of [django.core.files.base.File] that is not a [FieldFile]; [VFieldFile]
    is an instance of its subclass [FieldFile].  A file's [name] attribute
    is itself a Python value: it may be [None]. *)
Inductive PyVal : Type :=
| VNone
| VBool (b : bool)
| VInt (z : Z)
| VStr (s : string)
| VFile (name : PyVal) (body : string)
| VFieldFile (name : PyVal) (body : string).

(** [isinstance(v, File)]: true of a [File] and of its subclass. *)
Definition isinstance_File (v : PyVal) : bool :=
  match v with
  | VFile _ _ | VFieldFile _ _ => true
  | _ => false
  end.

(** [isinstance(v, FieldFile)]. *)
Definition isinstance_FieldFile (v : PyVal) : bool :=
  match v with
  | VFieldFile _ _ => true
  | _ => false
  end.

(** [bool(v)].  [File.__bool__] is [bool(self.name)], and [FieldFile]
    inherits it. *)
Fixpoint truthy (v : PyVal) : bool :=
  match v with
  | VNone => false
  | VBool b => b
  | VInt z => negb (Z.eqb z 0)
  | VStr s => negb (String.eqb s "")
  | VFile n _ | VFieldFile n _ => truthy n
  end.

(** [v.name] of a file object. *)
Definition attr_name (v : PyVal) : PyVal :=
  match v with
  | VFile n _ | VFieldFile n _ => n
  | _ => VNone
  end.

(** [a or b]. *)
Definition py_or (a b : PyVal) : PyVal := if truthy a then a else b.

(** ** Strings *)

(** [s.split(sep)] for a one-character separator. *)
Fixpoint str_split (sep : ascii) (s : string) : list string :=
  match s with
  | EmptyString => [EmptyString]
  | String c rest =>
      if Ascii.eqb c sep then EmptyString :: str_split sep rest
      else match str_split sep rest with
           | h :: t => String c h :: t
           | [] => [String c EmptyString]
           end
  end.

(** [sep.join(parts)]. *)
Definition str_join (sep : string) (parts : list string) : string :=
  String.concat sep parts.

(** [os.path.basename] (POSIX): what follows the last slash. *)
Definition basename (p : string) : string :=
  List.last (str_split "/"%char p) EmptyString.

(** ** Exceptions and results *)

Inductive exn : Type :=
| KeyError (key : string)
| ValueError
| TypeError
| DoesNotExist
| MultipleObjectsReturned
| ProgrammingError
| OperationalError
| LookupError
| FieldDoesNotExist
| PermissionDenied
| OSError (msg : string).

(** [except ProgrammingError]. *)
Definition is_ProgrammingError (e : exn) : bool :=
  match e with ProgrammingError => true | _ => false end.

(** [except ObjectDoesNotExist]: the model's [DoesNotExist] is a subclass. *)
Definition is_ObjectDoesNotExist (e : exn) : bool :=
  match e with DoesNotExist => true | _ => false end.

(** [except KeyError]. *)
Definition is_KeyError (e : exn) : bool :=
  match e with KeyError _ => true | _ => false end.

Inductive result (A : Type) : Type :=
| Ok (a : A)
| Raise (e : exn).

Arguments Ok {A} a.
Arguments Raise {A} e.

(** ** Model fields and model classes *)

Inductive Field : Type :=
| CharField
| BooleanField
| IntegerField
| FileField
| ImageField.

(** [isinstance(field, FileField)]; [ImageField] is a subclass.  A lookup
    that produced no field ([None]) is not an instance. *)
Definition isinstance_FileField (f : option Field) : bool :=
  match f with
  | Some FileField | Some ImageField => true
  | _ => false
  end.

(** A settings model class: [model._meta.get_field], [name_from_class()],
    [_internal_fields] and the [_meta] labels the admin uses. *)
Record ModelClass : Type := {
  get_field : string -> result Field;
  name_from_class : string;
  _internal_fields : list string;
  meta_app_label : string;
  meta_model_name : string
}.

(** ** The relational store *)

(** Modelled from the spec: [models.py] is not among the sources.  An
    application setting is a single named value within a group; a setting
    group is a named collection with the [last_modified] stamp the admin
    reads. *)
Record ApplicationSetting : Type := {
  group__group_name : string;   (* setting.group.group_name *)
  row_name : string;            (* setting.name *)
  row_value : PyVal             (* setting.value *)
}.

Record SettingGroup : Type := {
  group_name : string;
  last_modified : Z
}.

(** The database: the two tables, and the failure the connection answers a
    query or a write with, if any ([ProgrammingError] when the tables were
    never migrated).  A row's primary key is its position in the table. *)
Record DB : Type := {
  read_fault : option exn;
  write_fault : option exn;
  settings : list ApplicationSetting;
  groups : list SettingGroup
}.

(** What the code did to the outside world, in order. *)
Inductive Event : Type :=
| EvDelete (name : PyVal)
| EvSave (path : string)
| EvOpen (name : PyVal)
| EvRowSave (pk : nat) (v : PyVal)
| EvTouch (group : string)
| EvLogError (label : string)
| EvBegin
| EvCommit
| EvRollback.

(** The events that open or close a transaction. *)
Definition is_tx (e : Event) : bool :=
  match e with
  | EvBegin | EvCommit | EvRollback => true
  | _ => false
  end.

Record World (S : Type) : Type := {
  db : DB;
  storage : S;
  trace : list Event
}.

Arguments db {S} _.
Arguments storage {S} _.
Arguments trace {S} _.

(** ** The host framework *)

(** The storage abstraction ([default_storage]), the model registry
    ([djpwr.managers.get_model]) and the group manager's
    [touch_last_modified], which lives outside the sources at hand.  Any of
    them may raise. *)
Class Framework (S : Type) : Type := {
  storage_delete : PyVal -> S -> result unit * S;
  storage_save : string -> PyVal -> S -> result string * S;
  storage_open : PyVal -> S -> result string * S;
  get_model : string -> result ModelClass;
  touch_last_modified : string -> list SettingGroup -> result (list SettingGroup)
}.

(** The same framework with a storage whose [delete] has the same effect
    but never raises. *)
Definition never_failing_delete {S : Type} (F : Framework S) : Framework S :=
  {| storage_delete := fun n s => (Ok tt, snd (storage_delete n s));
     storage_save := storage_save;
     storage_open := storage_open;
     get_model := get_model;
     touch_last_modified := touch_last_modified |}.

(** ** Computations *)

Definition M (S A : Type) : Type := World S -> result A * World S.

Definition ret {S A} (a : A) : M S A := fun w => (Ok a, w).

Definition raise {S A} (e : exn) : M S A := fun w => (Raise e, w).

Definition bind {S A B} (m : M S A) (k : A -> M S B) : M S B :=
  fun w =>
    match m w with
    | (Ok a, w') => k a w'
    | (Raise e, w') => (Raise e, w')
    end.

(** Run [m] and hand its outcome, value or exception, to the caller: the
    body of a [try]. *)
Definition attempt {S A} (m : M S A) : M S (result A) :=
  fun w => let (r, w') := m w in (Ok r, w').

Definition lift {S A} (r : result A) : M S A := fun w => (r, w).

(** [m] only adds to the trace, and adds no transaction event. *)
Definition appends {S A} (m : M S A) : Prop :=
  forall w, exists evs,
    trace (snd (m w)) = (trace w ++ evs)%list
    /\ Forall (fun e => is_tx e = false) evs.

Notation "x <- m ;; k" := (bind m (fun x => k))
  (at level 100, m at level 99, right associativity).
Notation "m ;;; k" := (bind m (fun _ => k))
  (at level 100, right associativity).

Definition emit {S} (e : Event) (w : World S) : World S :=
  {| db := db w; storage := storage w; trace := trace w ++ [e] |}.

Definition with_db {S} (d : DB) (w : World S) : World S :=
  {| db := d; storage := storage w; trace := trace w |}.

Definition with_storage {S} (s : S) (w : World S) : World S :=
  {| db := db w; storage := s; trace := trace w |}.

Definition with_settings (rows : list ApplicationSetting) (d : DB) : DB :=
  {| read_fault := read_fault d; write_fault := write_fault d;
     settings := rows; groups := groups d |}.

Definition with_groups (gs : list SettingGroup) (d : DB) : DB :=
  {| read_fault := read_fault d; write_fault := write_fault d;
     settings := settings d; groups := gs |}.

(** ** Queries *)

(** The rows a filter selects, each with its primary key. *)
Fixpoint select_from {A} (i : nat) (p : A -> bool) (rows : list A)
  : list (nat * A) :=
  match rows with
  | [] => []
  | r :: rest =>
      if p r then (i, r) :: select_from (S i) p rest
      else select_from (S i) p rest
  end.

(** [Manager.get] under a filter: the one row the filter selects; [DoesNotExist]
    for none, [MultipleObjectsReturned] for several. *)
Definition manager_get {A} (fault : option exn) (p : A -> bool)
  (rows : list A) : result (nat * A) :=
  match fault with
  | Some e => Raise e
  | None =>
      match select_from 0 p rows with
      | [] => Raise DoesNotExist
      | [x] => Ok x
      | _ :: _ :: _ => Raise MultipleObjectsReturned
      end
  end.

(** [r], stored under key [pk], is the one row of [rows] that passes [p]. *)
Definition the_one {A} (p : A -> bool) (rows : list A) (pk : nat) (r : A)
  : Prop :=
  rows !! pk = Some r /\ p r = true /\
  forall pk' r', rows !! pk' = Some r' -> p r' = true -> pk' = pk.

Definition setting_filter (g n : string) (r : ApplicationSetting) : bool :=
  String.eqb (group__group_name r) g && String.eqb (row_name r) n.

(** [get_manager("app_settings.ApplicationSetting").get(
      group__group_name=g, name=n)]. *)
Definition settings_get (g n : string) (d : DB)
  : result (nat * ApplicationSetting) :=
  manager_get (read_fault d) (setting_filter g n) (settings d).

(** Row [row], under key [pk], is the one [ApplicationSetting] row of [d]
    whose group's [group_name] is [g] and whose [name] is [n]. *)
Definition resolves (d : DB) (g n : string) (pk : nat)
  (row : ApplicationSetting) : Prop :=
  settings d !! pk = Some row
  /\ group__group_name row = g /\ row_name row = n
  /\ forall pk' row',
       settings d !! pk' = Some row' ->
       group__group_name row' = g -> row_name row' = n -> pk' = pk.

(** [get_manager("app_settings.SettingGroup").get(group_name=g)]. *)
Definition groups_get (g : string) (d : DB) : result (nat * SettingGroup) :=
  manager_get (read_fault d) (fun r => String.eqb (group_name r) g) (groups d).

(** [setting.save()] of the row fetched under primary key [pk]. *)
Definition row_save (pk : nat) (r : ApplicationSetting) (d : DB) : result DB :=
  match write_fault d with
  | Some e => Raise e
  | None => Ok (with_settings (<[pk := r]> (settings d)) d)
  end.

Definition set_value (v : PyVal) (r : ApplicationSetting) : ApplicationSetting :=
  {| group__group_name := group__group_name r; row_name := row_name r;
     row_value := v |}.

(** Tuple unpacking [a, b, c = parts]. *)
Definition unpack3 (parts : list string) : result (string * string * string) :=
  match parts with
  | [a; b; c] => Ok (a, b, c)
  | _ => Raise ValueError
  end.

(** [os.path.basename(p)] of a Python value: a [TypeError] unless [p] is a
    string. *)
Definition os_path_basename (p : PyVal) : result string :=
  match p with
  | VStr s => Ok (basename s)
  | _ => Raise TypeError
  end.

(** ** djpwr_app_settings/__init__.py *)

Section Accessor.

Context {S : Type} `{Framework S}.

(** *** Calls into the framework, recorded in the trace *)

Definition default_storage_delete (n : PyVal) : M S unit :=
  fun w =>
    let w1 := emit (EvDelete n) w in
    let (r, s') := storage_delete n (storage w1) in
    (r, with_storage s' w1).

Definition default_storage_save (path : string) (content : PyVal) : M S string :=
  fun w =>
    let w1 := emit (EvSave path) w in
    let (r, s') := storage_save path content (storage w1) in
    (r, with_storage s' w1).

Definition default_storage_open (n : PyVal) : M S string :=
  fun w =>
    let w1 := emit (EvOpen n) w in
    let (r, s') := storage_open n (storage w1) in
    (r, with_storage s' w1).

Definition logger_error (label : string) : M S unit :=
  fun w => (Ok tt, emit (EvLogError label) w).

Definition objects_get (g n : string) : M S (nat * ApplicationSetting) :=
  fun w => (settings_get g n (db w), w).

Definition setting_group_get (g : string) : M S (nat * SettingGroup) :=
  fun w => (groups_get g (db w), w).

Definition setting_save (pk : nat) (r : ApplicationSetting) : M S unit :=
  fun w =>
    let w1 := emit (EvRowSave pk (row_value r)) w in
    match row_save pk r (db w1) with
    | Ok d => (Ok tt, with_db d w1)
    | Raise e => (Raise e, w1)
    end.

Definition touch (g : string) : M S unit :=
  fun w =>
    let w1 := emit (EvTouch g) w in
    match touch_last_modified g (groups (db w1)) with
    | Ok gs => (Ok tt, with_db (with_groups gs (db w1)) w1)
    | Raise e => (Raise e, w1)
    end.

(** *** Module-level helpers *)

Definition _setting_model_field (group_name setting_name : string)
  : option Field :=
  match get_model group_name with
  | Ok model =>
      match get_field model setting_name with
      | Ok field => Some field
      | Raise _ => None
      end
  | Raise _ => None
  end.

Definition _is_file_setting (group_name setting_name : string) : bool :=
  isinstance_FileField (_setting_model_field group_name setting_name).

Definition _storage_path_for (app_label model_name setting_name : string)
  (filename : PyVal) : result string :=
  match os_path_basename filename with
  | Ok base =>
      let filename := if String.eqb base "" then "upload" else base in
      Ok ("app_settings/" +:+ app_label +:+ "/" +:+ model_name +:+ "/"
            +:+ setting_name +:+ "/" +:+ filename)
  | Raise e => Raise e
  end.

Definition _delete_storage_name (name : PyVal) : M S unit :=
  if negb (truthy name) then ret tt
  else
    _ <- attempt (default_storage_delete name);;
    ret tt.

Definition _extract_storage_value (value : PyVal) : PyVal :=
  if isinstance_File value then py_or (attr_name value) (VStr "")
  else value.

Definition _open_as_django_file (storage_name : PyVal) : M S PyVal :=
  if negb (truthy storage_name) then ret VNone
  else
    r <- attempt (default_storage_open storage_name);;
    match r with
    | Ok f => ret (VFile storage_name f)
    | Raise _ => ret VNone
    end.

(** The world [_delete_storage_name name] leaves behind. *)
Definition after_delete (name : PyVal) (w : World S) : World S :=
  if truthy name then
    with_storage (snd (storage_delete name (storage w))) (emit (EvDelete name) w)
  else w.

End Accessor.

(** The test [__setitem__] makes for a new upload: a [File] that is not a
    [FieldFile]. *)
Definition is_new_upload (value : PyVal) : bool :=
  isinstance_File value && negb (isinstance_FieldFile value).

Module AppSettingDict.

Section Methods.

Context {S : Type} `{Framework S}.

Definition __getitem__ (setting_label : string) : M S PyVal :=
  parts <- lift (unpack3 (str_split "."%char setting_label));;
  let '(app_label, model_name, setting_name) := parts in
  let group_name := str_join "." [app_label; model_name] in
  r <- attempt (objects_get group_name setting_name);;
  match r with
  | Raise e =>
      if is_ProgrammingError e then
        logger_error setting_label;;; ret VNone
      else if is_ObjectDoesNotExist e then raise (KeyError setting_label)
      else raise e
  | Ok setting =>
      let value := row_value (snd setting) in
      if _is_file_setting group_name setting_name then
        _open_as_django_file (_extract_storage_value value)
      else ret value
  end.

Definition __setitem__ (setting_label : string) (value : PyVal) : M S unit :=
  parts <- lift (unpack3 (str_split "."%char setting_label));;
  let '(app_label, model_name, setting_name) := parts in
  let group_name := str_join "." [app_label; model_name] in
  setting <- objects_get group_name setting_name;;
  touch (group__group_name (snd setting));;;
  let old_storage_value := _extract_storage_value (row_value (snd setting)) in
  if isinstance_File value && negb (isinstance_FieldFile value) then
    _delete_storage_name old_storage_value;;;
    storage_path <-
      lift (_storage_path_for app_label model_name setting_name (attr_name value));;
    saved_name <- default_storage_save storage_path value;;
    setting_save (fst setting) (set_value (VStr saved_name) (snd setting))
  else
    (if negb (truthy value) then
       if _is_file_setting group_name setting_name then
         _delete_storage_name old_storage_value
       else ret tt
     else ret tt);;;
    setting_save (fst setting) (set_value value (snd setting)).

Definition get (setting_label : string) (default : PyVal) : M S PyVal :=
  r <- attempt (__getitem__ setting_label);;
  match r with
  | Ok v => ret v
  | Raise e => if is_KeyError e then ret default else raise e
  end.

Definition __contains__ (setting_label : string) : M S bool :=
  r <- attempt (__getitem__ setting_label);;
  match r with
  | Ok _ => ret true
  | Raise e => if is_KeyError e then ret false else raise e
  end.

End Methods.

End AppSettingDict.

(** ** djpwr_app_settings/admin.py *)

(** The view methods of a [ModelAdmin] a URL pattern can dispatch to. *)
Inductive View : Type :=
| ChangeView
| ChangelistView
| AddView
| DeleteView
| HistoryView.

(** [path(route, view, name=...)]. *)
Record URLPattern : Type := {
  route : string;
  callback : View;
  url_name : string
}.

(** The resolver dispatches a path to the first pattern whose route is the
    path. *)
Definition resolve (path : string) (patterns : list URLPattern) : option View :=
  match List.find (fun p => String.eqb (route p) path) patterns with
  | Some p => Some (callback p)
  | None => None
  end.

(** The view a URL name stands for. *)
Definition view_named (n : string) (patterns : list URLPattern) : option View :=
  match List.find (fun p => String.eqb (url_name p) n) patterns with
  | Some p => Some (callback p)
  | None => None
  end.

Inductive Method : Type := GET | POST.

(** A request, with what the framework answers for it: the permission
    checks, the validated form ([None] when [form.is_valid()] is false,
    else its [cleaned_data] in order), [all_valid(formsets)], and the
    outcome of [save_related], [log_change] and [response_change]. *)
Record Request : Type := {
  method : Method;
  has_change_permission : bool;
  has_view_or_change_permission : bool;
  cleaned_data : option (list (string * PyVal));
  formsets_valid : bool;
  after_save : result unit
}.

Inductive Response : Type :=
| response_change
| render_change_form.

(** [value is False]. *)
Definition is_False (v : PyVal) : bool :=
  match v with
  | VBool false => true
  | _ => false
  end.

(** [dict(pairs)]: a later pair replaces an earlier one with its key. *)
Fixpoint dict_set (k : string) (v : PyVal) (d : list (string * PyVal))
  : list (string * PyVal) :=
  match d with
  | [] => [(k, v)]
  | (k', v') :: rest =>
      if String.eqb k' k then (k, v) :: rest else (k', v') :: dict_set k v rest
  end.

Definition dict (pairs : list (string * PyVal)) : list (string * PyVal) :=
  List.fold_left (fun d kv => dict_set (fst kv) (snd kv) d) pairs [].

Module SettingGroupAdmin.

Section Methods.

Context {S : Type} `{Framework S}.

(** [self.model]. *)
Variable model : ModelClass.

Definition get_urls : list URLPattern :=
  let info_change :=
    meta_app_label model +:+ "_" +:+ meta_model_name model +:+ "_change" in
  let info_changelist :=
    meta_app_label model +:+ "_" +:+ meta_model_name model +:+ "_changelist" in
  [ {| route := ""; callback := ChangeView; url_name := info_change |};
    {| route := ""; callback := ChangeView; url_name := info_changelist |} ].

Definition has_add_permission (request : Request) : bool := false.

Definition get_changeform_initial_data : M S (list (string * PyVal)) :=
  fun w =>
    match read_fault (db w) with
    | Some e => (Raise e, w)
    | None =>
        let rows :=
          List.filter
            (fun r => String.eqb (group__group_name r) (name_from_class model))
            (settings (db w)) in
        (Ok (dict (List.map (fun r => (row_name r, row_value r)) rows)), w)
    end.

Fixpoint save_model (items : list (string * PyVal)) : M S unit :=
  match items with
  | [] => ret tt
  | (field_name, value) :: rest =>
      let group_name := name_from_class model in
      if existsb (String.eqb field_name) (_internal_fields model) then
        save_model rest
      else
        field <- lift (get_field model field_name);;
        if isinstance_FileField (Some field) then
          if is_False value then
            AppSettingDict.__setitem__
              (str_join "." [group_name; field_name]) VNone;;;
            save_model rest
          else if negb (truthy value) then save_model rest
          else
            AppSettingDict.__setitem__
              (str_join "." [group_name; field_name]) value;;;
            save_model rest
        else
          AppSettingDict.__setitem__
            (str_join "." [group_name; field_name]) value;;;
          save_model rest
  end.

(** The body of the view.  Building the form, hydrating the unsaved
    instance from the stored settings and rendering the page are the
    framework's work and reach the store only through the calls kept here,
    in the source's order; what the framework answers is in the [Request]. *)
Definition _changeform_view (request : Request) : M S Response :=
  _ <- setting_group_get (name_from_class model);;
  match method request with
  | POST =>
      if negb (has_change_permission request) then raise PermissionDenied
      else
        _ <- get_changeform_initial_data;;
        match cleaned_data request with
        | Some cleaned =>
            if formsets_valid request then
              save_model cleaned;;;
              lift (after_save request);;;
              ret response_change
            else ret render_change_form
        | None => ret render_change_form
        end
  | GET =>
      if negb (has_view_or_change_permission request) then
        raise PermissionDenied
      else
        _ <- get_changeform_initial_data;;
        ret render_change_form
  end.

(** [with transaction.atomic(...)]: the block's database writes are kept
    when it ends normally and undone when it raises.  What the block did
    to the file storage is not the database's to undo. *)
Definition transaction_atomic {A} (body : M S A) : M S A :=
  fun w =>
    match body (emit EvBegin w) with
    | (Ok a, w') => (Ok a, emit EvCommit w')
    | (Raise e, w') => (Raise e, emit EvRollback (with_db (db w) w'))
    end.

Definition changeform_view (request : Request) : M S Response :=
  transaction_atomic (_changeform_view request).

Definition change_view (request : Request) : M S Response :=
  changeform_view request.

End Methods.

End SettingGroupAdmin.

(** ** An in-memory framework

    A storage backend that keeps files in a list and can be told to fail,
    and a registry with one settings model, ["site.branding"], whose
    [logo] is a file field and whose [title] is a text field. *)

Record MemStorage : Type := {
  files : list (string * string);
  delete_fails : bool;
  save_fails : bool;
  open_fails : bool
}.

Definition with_files (fs : list (string * string)) (s : MemStorage)
  : MemStorage :=
  {| files := fs; delete_fails := delete_fails s; save_fails := save_fails s;
     open_fails := open_fails s |}.

Fixpoint file_lookup (p : string) (fs : list (string * string))
  : option string :=
  match fs with
  | [] => None
  | (q, body) :: rest => if String.eqb q p then Some body else file_lookup p rest
  end.

Definition file_remove (p : string) (fs : list (string * string))
  : list (string * string) :=
  List.filter (fun f => negb (String.eqb (fst f) p)) fs.

Definition file_body (v : PyVal) : string :=
  match v with
  | VFile _ b | VFieldFile _ b => b
  | _ => ""
  end.

Definition mem_delete (n : PyVal) (s : MemStorage) : result unit * MemStorage :=
  if delete_fails s then (Raise (OSError "delete"), s)
  else match n with
       | VStr p => (Ok tt, with_files (file_remove p (files s)) s)
       | _ => (Raise TypeError, s)
       end.

Definition mem_save (path : string) (content : PyVal) (s : MemStorage)
  : result string * MemStorage :=
  if save_fails s then (Raise (OSError "save"), s)
  else
    let saved :=
      match file_lookup path (files s) with
      | Some _ => path +:+ "_1"
      | None => path
      end in
    (Ok saved, with_files ((saved, file_body content) :: files s) s).

Definition mem_open (n : PyVal) (s : MemStorage) : result string * MemStorage :=
  if open_fails s then (Raise (OSError "open"), s)
  else match n with
       | VStr p =>
           match file_lookup p (files s) with
           | Some body => (Ok body, s)
           | None => (Raise (OSError "missing"), s)
           end
       | _ => (Raise TypeError, s)
       end.

Definition branding : ModelClass :=
  {| get_field := fun f =>
       if String.eqb f "logo" then Ok FileField
       else if String.eqb f "title" then Ok CharField
       else Raise FieldDoesNotExist;
     name_from_class := "site.branding";
     _internal_fields := ["id"; "group_name"; "last_modified"];
     meta_app_label := "site";
     meta_model_name := "branding" |}.

Definition mem_get_model (label : string) : result ModelClass :=
  if String.eqb label "site.branding" then Ok branding else Raise LookupError.

Definition mem_touch (g : string) (gs : list SettingGroup)
  : result (list SettingGroup) :=
  Ok (List.map
        (fun r =>
           if String.eqb (group_name r) g
           then {| group_name := g; last_modified := last_modified r + 1 |}
           else r) gs).

#[global] Instance mem_framework : Framework MemStorage := {|
  storage_delete := mem_delete;
  storage_save := mem_save;
  storage_open := mem_open;
  get_model := mem_get_model;
  touch_last_modified := mem_touch
|}.

Definition mem_store (fs : list (string * string)) : MemStorage :=
  {| files := fs; delete_fails := false; save_fails := false;
     open_fails := false |}.

Definition demo_title : ApplicationSetting :=
  {| group__group_name := "site.branding"; row_name := "title";
     row_value := VStr "Acme" |}.

Definition demo_logo : ApplicationSetting :=
  {| group__group_name := "site.branding"; row_name := "logo";
     row_value := VStr "app_settings/site/branding/logo/old.png" |}.

Definition demo_rows : list ApplicationSetting := [demo_title; demo_logo].

Definition demo_db : DB :=
  {| read_fault := None; write_fault := None; settings := demo_rows;
     groups := [ {| group_name := "site.branding"; last_modified := 0 |} ] |}.

Definition demo_files : list (string * string) :=
  [ ("app_settings/site/branding/logo/old.png", "OLD") ].

Definition demo_world : World MemStorage :=
  {| db := demo_db; storage := mem_store demo_files; trace := [] |}.

(** The same store before its migrations ran. *)
Definition unmigrated_world : World MemStorage :=
  {| db := {| read_fault := Some ProgrammingError; write_fault := None;
              settings := []; groups := [] |};
     storage := mem_store []; trace := [] |}.

(** The same store on a backend whose delete always fails. *)
Definition broken_delete_world : World MemStorage :=
  {| db := demo_db;
     storage := {| files := demo_files; delete_fails := true;
                   save_fails := false; open_fails := false |};
     trace := [] |}.

(** The same store on a backend whose save always fails. *)
Definition broken_save_world : World MemStorage :=
  {| db := demo_db;
     storage := {| files := demo_files; delete_fails := false;
                   save_fails := true; open_fails := false |};
     trace := [] |}.

(** The same store on a backend that cannot open files. *)
Definition broken_open_world : World MemStorage :=
  {| db := demo_db;
     storage := {| files := demo_files; delete_fails := false;
                   save_fails := false; open_fails := true |};
     trace := [] |}.

Definition upload : PyVal := VFile (VStr "/tmp/uploads/new.png") "NEW".

(** A valid POST of the branding form: a new title and a new logo. *)
Definition demo_post : Request :=
  {| method := POST;
     has_change_permission := true;
     has_view_or_change_permission := true;
     cleaned_data := Some [("title", VStr "New"); ("logo", upload)];
     formsets_valid := true;
     after_save := Ok tt |}.

(** ** Vocabulary of the further properties *)

(** [c in s]. *)
Fixpoint has_char (c : ascii) (s : string) : bool :=
  match s with
  | EmptyString => false
  | String x rest => Ascii.eqb x c || has_char c rest
  end.

(** [d.get(k)] on a [dict]. *)
Fixpoint dict_get (k : string) (d : list (string * PyVal)) : option PyVal :=
  match d with
  | [] => None
  | (k', v) :: rest => if String.eqb k' k then Some v else dict_get k rest
  end.

(** The key of a row, and the keys of the table in primary-key order. *)
Definition row_key (r : ApplicationSetting) : string * string :=
  (group__group_name r, row_name r).

Definition keys (d : DB) : list (string * string) :=
  List.map row_key (settings d).

(** [m] neither adds nor removes a row nor changes a row's key, and leaves
    the connection as it found it. *)
Definition keeps_keys {S A} (m : M S A) : Prop :=
  forall w,
    keys (db (snd (m w))) = keys (db w)
    /\ read_fault (db (snd (m w))) = read_fault (db w)
    /\ write_fault (db (snd (m w))) = write_fault (db w).

(** [m] leaves the file storage alone. *)
Definition keeps_storage {S A} (m : M S A) : Prop :=
  forall w, storage (snd (m w)) = storage w.

(** The test [save_model] makes before it writes an item: true of an
    internal field and of a file field whose value is falsy but not
    [False]. *)
Definition skips (model : ModelClass) (item : string * PyVal) : bool :=
  existsb (String.eqb (fst item)) (_internal_fields model)
  || match get_field model (fst item) with
     | Ok field =>
         isinstance_FileField (Some field)
         && negb (is_False (snd item)) && negb (truthy (snd item))
     | Raise _ => false
     end.

(** The items of a cleaned form that [save_model] passes over whatever the
    class of the value: internal fields, and file fields whose value is
    falsy, not [False] and not an uploaded [File], whose truth is its
    class's to decide. *)
Definition passed_over (model : ModelClass) (item : string * PyVal) : bool :=
  existsb (String.eqb (fst item)) (_internal_fields model)
  || match get_field model (fst item) with
     | Ok field =>
         isinstance_FileField (Some field)
         && negb (is_False (snd item)) && negb (truthy (snd item))
         && negb (is_new_upload (snd item))
     | Raise _ => false
     end.

(** ** djpwr_app_settings/signals.py *)

Module signals.

Section Handler.

Context {S : Type} `{Framework S}.

(** [models.MODEL_LABELS] and the two manager methods the handler calls,
    which live outside the sources at hand. *)
Variable MODEL_LABELS : list string.
Variable create_group : string -> DB -> result SettingGroup * DB.
Variable create_for_group : SettingGroup -> DB -> result unit * DB.

(** A manager call: it works on the database and on nothing else. *)
Definition manager_call {A} (f : DB -> result A * DB) : M S A :=
  fun w => let (r, d) := f (db w) in (r, with_db d w).

(** The [for model_label in MODEL_LABELS] loop. *)
Fixpoint setup_loop (labels : list string) : M S unit :=
  match labels with
  | [] => ret tt
  | model_label :: rest =>
      model_class <- lift (get_model model_label);;
      let group_name := name_from_class model_class in
      setting_group <- manager_call (create_group group_name);;
      manager_call (create_for_group setting_group);;;
      setup_loop rest
  end.

Definition setup_app_settings : M S unit :=
  SettingGroupAdmin.transaction_atomic (setup_loop MODEL_LABELS).

End Handler.

End signals.

(** Manager methods for the in-memory store: a group is appended to the
    groups, and gets one empty [title] row. *)
Definition mem_create_group (g : string) (d : DB) : result SettingGroup * DB :=
  match write_fault d with
  | Some e => (Raise e, d)
  | None =>
      let grp := {| group_name := g; last_modified := 0 |} in
      (Ok grp, with_groups (groups d ++ [grp]) d)
  end.

Definition mem_create_for_group (grp : SettingGroup) (d : DB)
  : result unit * DB :=
  match write_fault d with
  | Some e => (Raise e, d)
  | None =>
      (Ok tt,
       with_settings
         (settings d ++ [ {| group__group_name := group_name grp;
                             row_name := "title"; row_value := VStr "" |} ])
         d)
  end.

Definition empty_world : World MemStorage :=
  {| db := {| read_fault := None; write_fault := None; settings := [];
              groups := [] |};
     storage := mem_store []; trace := [] |}.

(** Two rows under one key. *)
Definition duplicated_world : World MemStorage :=
  {| db := with_settings [demo_title; demo_title; demo_logo] demo_db;
     storage := mem_store demo_files; trace := [] |}.

(** The logo row as the ORM hands it back when the value column keeps the
    file object: a [FieldFile] named by the storage path. *)
Definition demo_logo_file : ApplicationSetting :=
  {| group__group_name := "site.branding"; row_name := "logo";
     row_value :=
       VFieldFile (VStr "app_settings/site/branding/logo/old.png") "OLD" |}.

Definition fieldfile_world : World MemStorage :=
  {| db := with_settings [demo_title; demo_logo_file] demo_db;
     storage := mem_store demo_files; trace := [] |}.

(** An upload without a file name, and one without a name at all. *)
Definition unnamed_upload : PyVal := VFile (VStr "") "NEW".

Definition nameless_upload : PyVal := VFile VNone "NEW".

(** * Properties *)

(** ** Strings: splitting and joining *)

Lemma str_split_nonempty (sep : ascii) (s : string) : str_split sep s <> [].
Proof.
  destruct s as [|c rest]; simpl; [discriminate|].
  destruct (Ascii.eqb c sep); [discriminate|].
  destruct (str_split sep rest); discriminate.
Qed.

Lemma concat_cons_nonempty (sep x : string) (l : list string) :
  l <> [] -> String.concat sep (x :: l) = x +:+ sep +:+ String.concat sep l.
Proof. destruct l; [congruence | reflexivity]. Qed.

(** Joining the parts of a split with the separator gives the string back. *)
Lemma str_join_split (sep : ascii) (s : string) :
  str_join (String sep EmptyString) (str_split sep s) = s.
Proof.
  unfold str_join. induction s as [|c rest IH]; simpl; [reflexivity|].
  destruct (Ascii.eqb c sep) eqn:E.
  - apply Ascii.eqb_eq in E. subst c.
    rewrite concat_cons_nonempty by apply str_split_nonempty.
    simpl. now rewrite IH.
  - destruct (str_split sep rest) as [|h t] eqn:Hs.
    + now apply str_split_nonempty in Hs.
    + destruct t as [|h' t'].
      * simpl in *. now rewrite IH.
      * rewrite concat_cons_nonempty by discriminate.
        rewrite concat_cons_nonempty in IH by discriminate.
        now rewrite <- IH.
Qed.

Lemma append_cons (x : ascii) (a b : string) :
  String x a +:+ b = String x (a +:+ b).
Proof. reflexivity. Qed.

Lemma append_assoc (a b c : string) : (a +:+ b) +:+ c = a +:+ (b +:+ c).
Proof.
  induction a as [|x a' IH]; [reflexivity|].
  now rewrite !append_cons, IH.
Qed.

(** A label that unpacks to three parts is those parts joined by dots. *)
Lemma label_of_parts (label a b c : string) :
  str_split "."%char label = [a; b; c] ->
  label = str_join "." [a; b] +:+ "." +:+ c.
Proof.
  intros Hs. rewrite <- (str_join_split "."%char label), Hs.
  unfold str_join. cbn [String.concat]. now rewrite !append_assoc.
Qed.

(** ** Queries: what [Manager.get] returns *)

Section Queries.

Context {A : Type} (p : A -> bool).

Lemma select_from_In (rows : list A) (i pk : nat) (r : A) :
  In (pk, r) (select_from i p rows) <->
  i <= pk /\ rows !! (pk - i) = Some r /\ p r = true.
Proof.
  revert i. induction rows as [|x rest IH]; intros i; simpl.
  - split; [tauto | intros (_ & Hl & _); discriminate].
  - assert (Hstep : In (pk, r) (select_from (S i) p rest) <->
                    i < pk /\ rest !! (pk - S i) = Some r /\ p r = true).
    { rewrite IH. intuition lia. }
    destruct (p x) eqn:Hx; simpl; rewrite Hstep; split.
    + intros [Heq | (Hlt & Hl & Hp)].
      * injection Heq as -> ->. rewrite Nat.sub_diag. auto.
      * replace (pk - i) with (S (pk - S i)) by lia. auto with lia.
    + intros (Hle & Hl & Hp).
      destruct (decide (pk = i)) as [-> | Hne].
      * rewrite Nat.sub_diag in Hl. simpl in Hl. left. congruence.
      * right. replace (pk - i) with (S (pk - S i)) in Hl by lia.
        auto with lia.
    + intros (Hlt & Hl & Hp).
      replace (pk - i) with (S (pk - S i)) by lia. auto with lia.
    + intros (Hle & Hl & Hp).
      destruct (decide (pk = i)) as [-> | Hne].
      * rewrite Nat.sub_diag in Hl. simpl in Hl. congruence.
      * replace (pk - i) with (S (pk - S i)) in Hl by lia. auto with lia.
Qed.

Lemma select_from_none (rows : list A) (i : nat) :
  (forall j r, rows !! j = Some r -> p r = false) ->
  select_from i p rows = [].
Proof.
  intros Hnone. destruct (select_from i p rows) as [|[pk r] t] eqn:Hs;
    [reflexivity|].
  assert (Hin : In (pk, r) (select_from i p rows)) by (rewrite Hs; now left).
  apply select_from_In in Hin as (_ & Hl & Hp).
  rewrite (Hnone _ _ Hl) in Hp. discriminate.
Qed.

Lemma select_from_unique (rows : list A) (i pk : nat) (r : A) :
  rows !! pk = Some r -> p r = true ->
  (forall pk' r', rows !! pk' = Some r' -> p r' = true -> pk' = pk) ->
  select_from i p rows = [(i + pk, r)].
Proof.
  revert i pk. induction rows as [|x rest IH]; intros i pk Hl Hp Huniq.
  - discriminate.
  - simpl. destruct pk as [|pk].
    + simpl in Hl. injection Hl as ->. rewrite Hp, Nat.add_0_r. f_equal.
      apply select_from_none. intros j r' Hj.
      destruct (p r') eqn:Hr'; [|reflexivity].
      specialize (Huniq (S j) r' Hj Hr'). discriminate.
    + destruct (p x) eqn:Hx.
      * specialize (Huniq 0 x eq_refl Hx). discriminate.
      * rewrite (IH (S i) pk Hl Hp).
        -- do 2 f_equal. lia.
        -- intros pk' r' Hl' Hp'.
           specialize (Huniq (S pk') r' Hl' Hp'). lia.
Qed.

(** [get] returns a row exactly when the filter selects one row and the
    connection is sound; the row comes with its primary key. *)
Lemma manager_get_Ok (fault : option exn) (rows : list A) (pk : nat) (r : A) :
  manager_get fault p rows = Ok (pk, r) <->
  fault = None /\ the_one p rows pk r.
Proof.
  unfold manager_get, the_one. split.
  - destruct fault; [discriminate|].
    destruct (select_from 0 p rows) as [|x [|y t]] eqn:Hs; try discriminate.
    intros [= ->].
    assert (Hin : In (pk, r) (select_from 0 p rows)) by (rewrite Hs; now left).
    apply select_from_In in Hin as (_ & Hl & Hp).
    rewrite Nat.sub_0_r in Hl. repeat split; auto.
    intros pk' r' Hl' Hp'.
    assert (Hin' : In (pk', r') (select_from 0 p rows)).
    { apply select_from_In. rewrite Nat.sub_0_r. auto with lia. }
    rewrite Hs in Hin'. destruct Hin' as [Heq | []]. congruence.
  - intros (-> & Hl & Hp & Huniq).
    now rewrite (select_from_unique rows 0 pk r Hl Hp Huniq).
Qed.

Lemma manager_get_fault (e : exn) (rows : list A) :
  manager_get (Some e) p rows = Raise e.
Proof. reflexivity. Qed.

(** Saving a row that still passes the filter under the key it was
    fetched with leaves it the one row the filter selects. *)
Lemma the_one_insert (rows : list A) (pk : nat) (r r' : A) :
  the_one p rows pk r -> p r' = true -> the_one p (<[pk := r']> rows) pk r'.
Proof.
  intros (Hl & Hp & Huniq) Hp'. unfold the_one. repeat split; auto.
  - apply list_lookup_insert_eq. now apply lookup_lt_Some in Hl.
  - intros pk' r'' Hl' Hp''.
    destruct (decide (pk' = pk)) as [|Hne]; [assumption|].
    rewrite list_lookup_insert_ne in Hl' by congruence. eauto.
Qed.

End Queries.

(** ** The accessor, step by step *)

Ltac run :=
  unfold bind, ret, raise, lift, attempt, logger_error, objects_get,
    setting_save, touch, default_storage_delete, default_storage_save,
    default_storage_open, setting_group_get in *.

Section AccessorFacts.

Context {S : Type} `{Framework S}.

Implicit Types (w : World S) (label : string) (v : PyVal).

Lemma delete_storage_name_falsy (n : PyVal) w :
  truthy n = false -> _delete_storage_name n w = (Ok tt, w).
Proof. intros Hn. unfold _delete_storage_name. now rewrite Hn. Qed.

Lemma delete_storage_name_truthy (n : PyVal) w :
  truthy n = true ->
  _delete_storage_name n w =
    (Ok tt, with_storage (snd (storage_delete n (storage w)))
              (emit (EvDelete n) w)).
Proof.
  intros Hn. unfold _delete_storage_name. rewrite Hn. run. simpl.
  now destruct (storage_delete n (storage w)).
Qed.

Lemma delete_storage_name_run (n : PyVal) w :
  _delete_storage_name n w = (Ok tt, after_delete n w).
Proof.
  unfold after_delete. destruct (truthy n) eqn:Hn.
  - now apply delete_storage_name_truthy.
  - now apply delete_storage_name_falsy.
Qed.

Lemma open_as_django_file_falsy (n : PyVal) w :
  truthy n = false -> _open_as_django_file n w = (Ok VNone, w).
Proof. intros Hn. unfold _open_as_django_file. now rewrite Hn. Qed.

Lemma open_as_django_file_truthy (n : PyVal) w :
  truthy n = true ->
  _open_as_django_file n w =
    (match fst (storage_open n (storage w)) with
     | Ok f => Ok (VFile n f)
     | Raise _ => Ok VNone
     end,
     with_storage (snd (storage_open n (storage w))) (emit (EvOpen n) w)).
Proof.
  intros Hn. unfold _open_as_django_file. rewrite Hn. run. simpl.
  now destruct (storage_open n (storage w)) as [[f|e] s'].
Qed.

Lemma open_as_django_file_returns (n : PyVal) w :
  exists r, fst (_open_as_django_file n w) = Ok r.
Proof.
  destruct (truthy n) eqn:Hn.
  - rewrite open_as_django_file_truthy by assumption. simpl.
    destruct (fst (storage_open n (storage w))); eauto.
  - rewrite open_as_django_file_falsy by assumption. simpl. eauto.
Qed.

(** [__getitem__] on a label of three parts. *)
Lemma getitem_parts label (a b c : string) w :
  str_split "."%char label = [a; b; c] ->
  AppSettingDict.__getitem__ label w =
    match settings_get (str_join "." [a; b]) c (db w) with
    | Raise e =>
        if is_ProgrammingError e then (Ok VNone, emit (EvLogError label) w)
        else if is_ObjectDoesNotExist e then (Raise (KeyError label), w)
        else (Raise e, w)
    | Ok setting =>
        if _is_file_setting (str_join "." [a; b]) c then
          _open_as_django_file
            (_extract_storage_value (row_value (snd setting))) w
        else (Ok (row_value (snd setting)), w)
    end.
Proof.
  intros Hs. unfold AppSettingDict.__getitem__. rewrite Hs. run. simpl.
  destruct (settings_get _ c (db w)) as [setting|e];
    [now destruct (_is_file_setting _ c)|].
  destruct (is_ProgrammingError e); [reflexivity|].
  now destruct (is_ObjectDoesNotExist e).
Qed.

(** [__setitem__] on a label of three parts. *)
Lemma setitem_parts label (a b c : string) v w :
  str_split "."%char label = [a; b; c] ->
  AppSettingDict.__setitem__ label v w =
    match settings_get (str_join "." [a; b]) c (db w) with
    | Raise e => (Raise e, w)
    | Ok (pk, row) =>
        let g := group__group_name row in
        let w1 := emit (EvTouch g) w in
        match touch_last_modified g (groups (db w)) with
        | Raise e => (Raise e, w1)
        | Ok gs =>
            let w2 := with_db (with_groups gs (db w)) w1 in
            let old := _extract_storage_value (row_value row) in
            if is_new_upload v then
              let w3 := after_delete old w2 in
              match _storage_path_for a b c (attr_name v) with
              | Raise e => (Raise e, w3)
              | Ok path =>
                  let w4 := emit (EvSave path) w3 in
                  match storage_save path v (storage w3) with
                  | (Raise e, s') => (Raise e, with_storage s' w4)
                  | (Ok saved, s') =>
                      setting_save pk (set_value (VStr saved) row)
                        (with_storage s' w4)
                  end
              end
            else
              setting_save pk (set_value v row)
                (if negb (truthy v) && _is_file_setting (str_join "." [a; b]) c
                 then after_delete old w2 else w2)
        end
    end.
Proof.
  intros Hs. unfold AppSettingDict.__setitem__, is_new_upload.
  rewrite Hs. unfold bind at 1. unfold lift at 1. simpl unpack3. cbv iota beta.
  unfold bind at 1. unfold objects_get.
  destruct (settings_get _ c (db w)) as [[pk row]|e]; [|reflexivity].
  cbn [fst snd]. unfold bind at 1. unfold touch at 1. cbn [db emit groups].
  destruct (touch_last_modified _ (groups (db w))) as [gs|e]; [|reflexivity].
  destruct (isinstance_File v && negb (isinstance_FieldFile v)).
  - unfold bind at 1. rewrite delete_storage_name_run.
    unfold bind at 1. unfold lift.
    destruct (_storage_path_for a b c (attr_name v)) as [path|e];
      [|reflexivity].
    unfold bind, default_storage_save. cbn [storage emit].
    now destruct (storage_save path v _) as [[saved|e] s'].
  - unfold bind at 1.
    destruct (truthy v); cbn [negb andb].
    + reflexivity.
    + destruct (_is_file_setting _ c).
      * now rewrite delete_storage_name_run.
      * reflexivity.
Qed.

(** [__setitem__] on any other label fails at the unpacking. *)
Lemma setitem_malformed label v w :
  unpack3 (str_split "."%char label) = Raise ValueError ->
  AppSettingDict.__setitem__ label v w = (Raise ValueError, w).
Proof.
  intros Hs. unfold AppSettingDict.__setitem__. run. now rewrite Hs.
Qed.

(** [__getitem__] on any other label fails at the unpacking. *)
Lemma getitem_malformed label w :
  unpack3 (str_split "."%char label) = Raise ValueError ->
  AppSettingDict.__getitem__ label w = (Raise ValueError, w).
Proof.
  intros Hs. unfold AppSettingDict.__getitem__. run. now rewrite Hs.
Qed.

Lemma unpack3_cases (parts : list string) :
  (exists a b c, parts = [a; b; c]) \/ unpack3 parts = Raise ValueError.
Proof.
  destruct parts as [|a [|b [|c [|d t]]]]; simpl; eauto.
Qed.

(** [get] and [__contains__] in terms of what [__getitem__] does. *)
Lemma get_of_getitem label (default : PyVal) w :
  AppSettingDict.get label default w =
    (match fst (AppSettingDict.__getitem__ label w) with
     | Ok v => Ok v
     | Raise e => if is_KeyError e then Ok default else Raise e
     end, snd (AppSettingDict.__getitem__ label w)).
Proof.
  unfold AppSettingDict.get. run.
  destruct (AppSettingDict.__getitem__ label w) as [[v|e] w']; simpl;
    [reflexivity|]. now destruct (is_KeyError e).
Qed.

Lemma contains_of_getitem label w :
  AppSettingDict.__contains__ label w =
    (match fst (AppSettingDict.__getitem__ label w) with
     | Ok _ => Ok true
     | Raise e => if is_KeyError e then Ok false else Raise e
     end, snd (AppSettingDict.__getitem__ label w)).
Proof.
  unfold AppSettingDict.__contains__. run.
  destruct (AppSettingDict.__getitem__ label w) as [[v|e] w']; simpl;
    [reflexivity|]. now destruct (is_KeyError e).
Qed.

End AccessorFacts.

(** ** File settings are found by model-field introspection *)

(** C2.  A setting is a file setting if and only if the model resolved from
    its group has a field of its name that is an instance of [FileField];
    when resolving the model or the field raises, whatever the exception,
    it is not a file setting. *)
Theorem is_file_setting_by_introspection
  {S : Type} `{Framework S} (group_name setting_name : string) :
  (_is_file_setting group_name setting_name = true <->
     exists model field,
       get_model group_name = Ok model /\
       get_field model setting_name = Ok field /\
       isinstance_FileField (Some field) = true)
  /\ (forall e, get_model group_name = Raise e ->
        _is_file_setting group_name setting_name = false)
  /\ (forall model e,
        get_model group_name = Ok model ->
        get_field model setting_name = Raise e ->
        _is_file_setting group_name setting_name = false).
Proof.
  unfold _is_file_setting, _setting_model_field. repeat split.
  - destruct (get_model group_name) as [model|e]; [|discriminate].
    destruct (get_field model setting_name) as [field|e] eqn:Hf;
      [|discriminate].
    intros Hfile. exists model, field. auto.
  - intros (model & field & -> & -> & Hfile). exact Hfile.
  - intros e ->. reflexivity.
  - intros model e -> ->. reflexivity.
Qed.

Lemma is_file_setting_by_introspection_witness :
  @_is_file_setting MemStorage _ "site.branding" "logo" = true /\
  @_is_file_setting MemStorage _ "site.branding" "title" = false /\
  @_is_file_setting MemStorage _ "site.footer" "logo" = false /\
  @_is_file_setting MemStorage _ "site.branding" "missing" = false.
Proof.
  pose proof
    (@is_file_setting_by_introspection MemStorage _ "site.branding" "logo")
    as (Hiff & _ & _).
  pose proof
    (@is_file_setting_by_introspection MemStorage _ "site.footer" "logo")
    as (_ & Hmodel & _).
  pose proof
    (@is_file_setting_by_introspection MemStorage _ "site.branding" "missing")
    as (_ & _ & Hfield).
  split; [|split; [|split]].
  - apply Hiff. exists branding, FileField. repeat split; reflexivity.
  - reflexivity.
  - apply (Hmodel LookupError). reflexivity.
  - apply (Hfield branding FieldDoesNotExist); reflexivity.
Defined.

(** ** Storage deletion cannot fail a write *)

(** C9.  [_delete_storage_name] returns without raising for every name and
    in every world: it does nothing for an empty name and swallows what the
    storage's delete raises.  A [__setitem__] call therefore ends exactly as
    it would on a storage whose delete never fails. *)
Theorem delete_storage_name_never_raises
  {S : Type} (F : Framework S) (name : PyVal) (w : World S) :
  fst (_delete_storage_name name w) = Ok tt
  /\ (truthy name = false -> _delete_storage_name name w = (Ok tt, w))
  /\ (forall e s',
        truthy name = true ->
        storage_delete name (storage w) = (Raise e, s') ->
        _delete_storage_name name w =
          (Ok tt, with_storage s' (emit (EvDelete name) w)))
  /\ (forall label v,
        @AppSettingDict.__setitem__ S F label v w =
        @AppSettingDict.__setitem__ S (never_failing_delete F) label v w).
Proof.
  repeat split.
  - now rewrite delete_storage_name_run.
  - apply delete_storage_name_falsy.
  - intros e s' Hn Hd. rewrite delete_storage_name_truthy by assumption.
    now rewrite Hd.
  - intros label v.
    destruct (unpack3_cases (str_split "."%char label))
      as [(a & b & c & Hs) | Hbad].
    + rewrite (@setitem_parts S F label a b c v w Hs).
      rewrite (@setitem_parts S (never_failing_delete F) label a b c v w Hs).
      reflexivity.
    + now rewrite !setitem_malformed.
Qed.

Lemma delete_storage_name_never_raises_witness :
  let old := VStr "app_settings/site/branding/logo/old.png" in
  fst (storage_delete old (storage broken_delete_world)) = Raise (OSError "delete")
  /\ fst (_delete_storage_name old broken_delete_world) = Ok tt
  /\ _delete_storage_name (VStr "") broken_delete_world
     = (Ok tt, broken_delete_world)
  /\ fst (AppSettingDict.__setitem__ "site.branding.logo" upload
            broken_delete_world) = Ok tt.
Proof.
  intros old.
  pose proof (delete_storage_name_never_raises mem_framework old
                broken_delete_world) as (Hok & _ & Hswallow & Hset).
  pose proof (delete_storage_name_never_raises mem_framework (VStr "")
                broken_delete_world) as (_ & Hempty & _).
  split; [|split; [|split]].
  - reflexivity.
  - exact Hok.
  - apply Hempty. reflexivity.
  - rewrite Hset. vm_compute. reflexivity.
Defined.

(** ** Reading before the migrations ran *)

(** C10.  When the row lookup raises [ProgrammingError], [__getitem__] logs
    an error and returns [None]; [get] then returns [None] whatever default
    it was given, and [__contains__] returns [True], although no row was
    read. *)
Theorem getitem_degrades_on_ProgrammingError
  {S : Type} `{Framework S} (label a b c : string) (default : PyVal)
  (w : World S) :
  str_split "."%char label = [a; b; c] ->
  settings_get (str_join "." [a; b]) c (db w) = Raise ProgrammingError ->
  AppSettingDict.__getitem__ label w = (Ok VNone, emit (EvLogError label) w)
  /\ AppSettingDict.get label default w
     = (Ok VNone, emit (EvLogError label) w)
  /\ AppSettingDict.__contains__ label w
     = (Ok true, emit (EvLogError label) w).
Proof.
  intros Hs Hlookup.
  assert (Hget : AppSettingDict.__getitem__ label w
                 = (Ok VNone, emit (EvLogError label) w)).
  { rewrite (getitem_parts label a b c w Hs), Hlookup. reflexivity. }
  split; [exact Hget|]. split.
  - rewrite get_of_getitem, Hget. reflexivity.
  - rewrite contains_of_getitem, Hget. reflexivity.
Qed.

Lemma getitem_degrades_on_ProgrammingError_witness :
  AppSettingDict.__getitem__ "site.branding.logo" unmigrated_world
  = (Ok VNone, emit (EvLogError "site.branding.logo") unmigrated_world)
  /\ AppSettingDict.get "site.branding.logo" (VStr "fallback") unmigrated_world
     = (Ok VNone, emit (EvLogError "site.branding.logo") unmigrated_world)
  /\ AppSettingDict.__contains__ "site.branding.logo" unmigrated_world
     = (Ok true, emit (EvLogError "site.branding.logo") unmigrated_world).
Proof.
  apply (getitem_degrades_on_ProgrammingError
           "site.branding.logo" "site" "branding" "logo");
    reflexivity.
Defined.

(** ** The dict-like methods *)

(** C4, as the code has it.  [get] returns what [__getitem__] returns when
    the lookup succeeds and the default when it raises [KeyError];
    [__contains__] returns [False] exactly when [__getitem__] raises
    [KeyError] and [True] exactly when [__getitem__] returns.  Any other
    exception of [__getitem__] is raised by [get] and by [__contains__]
    as well: they catch [KeyError] only. *)
Theorem get_and_contains_follow_getitem
  {S : Type} `{Framework S} (label : string) (default : PyVal) (w : World S) :
  (forall v w', AppSettingDict.__getitem__ label w = (Ok v, w') ->
     AppSettingDict.get label default w = (Ok v, w'))
  /\ (forall k w', AppSettingDict.__getitem__ label w = (Raise (KeyError k), w') ->
        AppSettingDict.get label default w = (Ok default, w'))
  /\ (forall w', AppSettingDict.get label default w = (Ok default, w') <->
        AppSettingDict.__getitem__ label w = (Ok default, w') \/
        exists k, AppSettingDict.__getitem__ label w = (Raise (KeyError k), w'))
  /\ (forall w', AppSettingDict.__contains__ label w = (Ok false, w') <->
        exists k, AppSettingDict.__getitem__ label w = (Raise (KeyError k), w'))
  /\ (forall w', AppSettingDict.__contains__ label w = (Ok true, w') <->
        exists v, AppSettingDict.__getitem__ label w = (Ok v, w'))
  /\ (forall e w', AppSettingDict.__getitem__ label w = (Raise e, w') ->
        is_KeyError e = false ->
        AppSettingDict.get label default w = (Raise e, w') /\
        AppSettingDict.__contains__ label w = (Raise e, w')).
Proof.
  rewrite get_of_getitem, contains_of_getitem.
  destruct (AppSettingDict.__getitem__ label w) as [[v0|e0] w0]; simpl.
  - split; [|split; [|split; [|split; [|split]]]].
    + intros v w' [= -> ->]. reflexivity.
    + intros k w' [=].
    + intros w'. split.
      * intros [= -> ->]. now left.
      * intros [[= -> ->] | [k [=]]]. reflexivity.
    + intros w'. split; [intros [=] | intros [k [=]]].
    + intros w'. split.
      * intros [= ->]. eauto.
      * intros [v [= -> ->]]. reflexivity.
    + intros e w' [=].
  - split; [|split; [|split; [|split; [|split]]]].
    + intros v w' [=].
    + intros k w' [= -> ->]. reflexivity.
    + intros w'. destruct e0; simpl; split;
        try (intros [=]; subst; eauto; fail);
        try (intros [[=] | [k [=]]]; subst; eauto; fail).
    + intros w'. destruct e0; simpl; split;
        try (intros [=]; subst; eauto; fail);
        try (intros [k [=]]; subst; eauto; fail).
    + intros w'. destruct e0; simpl; split;
        try (intros [=]; fail); try (intros [v [=]]; fail).
    + intros e w' [= -> ->] Hk. rewrite Hk. auto.
Qed.

Lemma get_and_contains_follow_getitem_witness :
  AppSettingDict.get "site.branding.title" (VStr "fallback") demo_world
  = (Ok (VStr "Acme"), demo_world)
  /\ AppSettingDict.get "site.branding.nope" (VStr "fallback") demo_world
     = (Ok (VStr "fallback"), demo_world)
  /\ AppSettingDict.__contains__ "site.branding.nope" demo_world
     = (Ok false, demo_world)
  /\ AppSettingDict.__contains__ "site.branding.title" demo_world
     = (Ok true, demo_world).
Proof.
  pose proof (get_and_contains_follow_getitem "site.branding.title"
                (VStr "fallback") demo_world) as (Hhit & _ & _ & _ & Hin & _).
  pose proof (get_and_contains_follow_getitem "site.branding.nope"
                (VStr "fallback") demo_world) as (_ & Hmiss & _ & Hout & _).
  split; [|split; [|split]].
  - apply Hhit. reflexivity.
  - apply (Hmiss "site.branding.nope"). reflexivity.
  - apply Hout. exists "site.branding.nope". reflexivity.
  - apply Hin. exists (VStr "Acme"). reflexivity.
Defined.

(** C4, as the spec words it, fails.  With two rows under its key the
    label's lookup raises [MultipleObjectsReturned], which is no
    [KeyError]; yet [__contains__] does not return [True], it raises.  So
    does a label of two parts, with [ValueError]. *)
Lemma contains_is_not_True_otherwise :
  (forall k,
     fst (AppSettingDict.__getitem__ "site.branding.title" duplicated_world)
     <> Raise (KeyError k))
  /\ fst (AppSettingDict.__contains__ "site.branding.title" duplicated_world)
     = Raise MultipleObjectsReturned
  /\ fst (AppSettingDict.__contains__ "site.branding.title" duplicated_world)
     <> Ok true
  /\ (forall k,
        fst (AppSettingDict.__getitem__ "site.branding" demo_world)
        <> Raise (KeyError k))
  /\ fst (AppSettingDict.__contains__ "site.branding" demo_world) <> Ok true.
Proof.
  split; [intros k; vm_compute; discriminate|].
  split; [reflexivity|].
  split; [vm_compute; discriminate|].
  split; [intros k; vm_compute; discriminate|].
  vm_compute. discriminate.
Qed.

(** ** Reading a file setting *)

Lemma extract_storage_value_file (stored : PyVal) :
  (forall n body,
     stored = VFile n body \/ stored = VFieldFile n body ->
     _extract_storage_value stored = if truthy n then n else VStr "")
  /\ (isinstance_File stored = false -> _extract_storage_value stored = stored).
Proof.
  split.
  - intros n body [-> | ->]; reflexivity.
  - intros Hnot. unfold _extract_storage_value. now rewrite Hnot.
Qed.

(** C6.  For a setting whose model field is a [FileField], [__getitem__]
    takes the storage name from the row's value ([.name] of a [File] or
    [FieldFile], else the value itself) and returns the file opened from
    storage as a [File] under that name, or [None] when the name is empty or
    the open raises; it never raises. *)
Theorem getitem_file_setting
  {S : Type} `{Framework S} (label a b c : string) (pk : nat)
  (row : ApplicationSetting) (w : World S) :
  str_split "."%char label = [a; b; c] ->
  settings_get (str_join "." [a; b]) c (db w) = Ok (pk, row) ->
  _is_file_setting (str_join "." [a; b]) c = true ->
  let storage_value := _extract_storage_value (row_value row) in
  (forall n body,
     row_value row = VFile n body \/ row_value row = VFieldFile n body ->
     storage_value = if truthy n then n else VStr "")
  /\ (isinstance_File (row_value row) = false -> storage_value = row_value row)
  /\ (truthy storage_value = false ->
        AppSettingDict.__getitem__ label w = (Ok VNone, w))
  /\ (forall f s',
        truthy storage_value = true ->
        storage_open storage_value (storage w) = (Ok f, s') ->
        AppSettingDict.__getitem__ label w
        = (Ok (VFile storage_value f),
           with_storage s' (emit (EvOpen storage_value) w)))
  /\ (forall e s',
        truthy storage_value = true ->
        storage_open storage_value (storage w) = (Raise e, s') ->
        AppSettingDict.__getitem__ label w
        = (Ok VNone, with_storage s' (emit (EvOpen storage_value) w)))
  /\ (exists v, fst (AppSettingDict.__getitem__ label w) = Ok v).
Proof.
  intros Hs Hrow Hfile storage_value.
  assert (Hget : AppSettingDict.__getitem__ label w
                 = _open_as_django_file storage_value w).
  { rewrite (getitem_parts label a b c w Hs), Hrow, Hfile. reflexivity. }
  rewrite Hget.
  destruct (extract_storage_value_file (row_value row)) as (Hname & Hplain).
  split; [exact Hname|]. split; [exact Hplain|]. split; [|split; [|split]].
  - apply open_as_django_file_falsy.
  - intros f s' Ht Hopen.
    rewrite open_as_django_file_truthy by assumption. now rewrite Hopen.
  - intros e s' Ht Hopen.
    rewrite open_as_django_file_truthy by assumption. now rewrite Hopen.
  - apply open_as_django_file_returns.
Qed.

Lemma getitem_file_setting_witness :
  let stored := VStr "app_settings/site/branding/logo/old.png" in
  AppSettingDict.__getitem__ "site.branding.logo" demo_world
  = (Ok (VFile stored "OLD"), emit (EvOpen stored) demo_world)
  /\ AppSettingDict.__getitem__ "site.branding.logo" broken_open_world
     = (Ok VNone, emit (EvOpen stored) broken_open_world).
Proof.
  intros stored.
  pose proof (getitem_file_setting "site.branding.logo" "site" "branding"
                "logo" 1 demo_logo demo_world eq_refl eq_refl eq_refl)
    as (_ & _ & _ & Hopen & _).
  pose proof (getitem_file_setting "site.branding.logo" "site" "branding"
                "logo" 1 demo_logo broken_open_world eq_refl eq_refl eq_refl)
    as (_ & _ & _ & _ & Hfail & _).
  split.
  - apply (Hopen "OLD" (mem_store demo_files)); reflexivity.
  - apply (Hfail (OSError "open") (storage broken_open_world)); reflexivity.
Defined.

(** ** Writing: the file lifecycle *)

Lemma after_delete_db {S : Type} `{Framework S} (n : PyVal) (w : World S) :
  db (after_delete n w) = db w.
Proof. unfold after_delete. now destruct (truthy n). Qed.

Lemma after_delete_storage {S : Type} `{Framework S} (n : PyVal) (w : World S) :
  storage (after_delete n w)
  = if truthy n then snd (storage_delete n (storage w)) else storage w.
Proof. unfold after_delete. now destruct (truthy n). Qed.

Lemma after_delete_trace {S : Type} `{Framework S} (n : PyVal) (w : World S) :
  trace (after_delete n w)
  = (trace w ++ (if truthy n then [EvDelete n] else []))%list.
Proof.
  unfold after_delete. destruct (truthy n); simpl; [reflexivity|].
  now rewrite app_nil_r.
Qed.

Lemma set_value_passes_filter (g n : string) (v : PyVal)
  (row : ApplicationSetting) :
  setting_filter g n row = true -> setting_filter g n (set_value v row) = true.
Proof. trivial. Qed.

(** A saved row is the row the same lookup finds afterwards. *)
Lemma settings_get_after_save (g n : string) (pk : nat)
  (row : ApplicationSetting) (v : PyVal) (d : DB) (gs : list SettingGroup) :
  settings_get g n d = Ok (pk, row) ->
  settings_get g n
    (with_settings (<[pk := set_value v row]> (settings d)) (with_groups gs d))
  = Ok (pk, set_value v row).
Proof.
  unfold settings_get. intros Hget.
  apply manager_get_Ok in Hget as (Hfault & Hone).
  apply manager_get_Ok. simpl. split; [assumption|].
  apply the_one_insert with (r := row); [assumption|].
  apply set_value_passes_filter. apply Hone.
Qed.

Section Lifecycle.

Context {S : Type} `{Framework S}.

Variables (label a b c : string) (pk : nat) (row : ApplicationSetting)
  (gs : list SettingGroup) (w : World S).

Let g := str_join "." [a; b].
Let old := _extract_storage_value (row_value row).

Hypothesis Hlabel : str_split "."%char label = [a; b; c].
Hypothesis Hrow : settings_get g c (db w) = Ok (pk, row).
Hypothesis Htouch :
  touch_last_modified (group__group_name row) (groups (db w)) = Ok gs.
Hypothesis Hwrite : write_fault (db w) = None.

(** The storage once the old file is gone. *)
Let cleared : S :=
  if truthy old then snd (storage_delete old (storage w)) else storage w.

Lemma setitem_upload_run (v : PyVal) (path saved : string) (s' : S) :
  is_new_upload v = true ->
  _storage_path_for a b c (attr_name v) = Ok path ->
  storage_save path v cleared = (Ok saved, s') ->
  exists w',
    AppSettingDict.__setitem__ label v w = (Ok tt, w')
    /\ trace w' = (trace w ++ [EvTouch (group__group_name row)]
                    ++ (if truthy old then [EvDelete old] else [])
                    ++ [EvSave path; EvRowSave pk (VStr saved)])%list
    /\ storage w' = s'
    /\ settings (db w') = <[pk := set_value (VStr saved) row]> (settings (db w))
    /\ settings_get g c (db w') = Ok (pk, set_value (VStr saved) row).
Proof.
  intros Hnew Hpath Hsave.
  rewrite (setitem_parts label a b c v w Hlabel).
  fold g. rewrite Hrow. cbv beta iota zeta. rewrite Htouch.
  cbv beta iota zeta. rewrite Hnew, Hpath.
  fold old. rewrite after_delete_storage. cbn [storage with_db emit].
  fold cleared. rewrite Hsave.
  unfold setting_save, row_save.
  cbn [db emit with_storage with_db write_fault with_groups].
  rewrite after_delete_db. cbn [db with_db write_fault with_groups emit].
  rewrite Hwrite. eexists. split; [reflexivity|].
  cbn [trace storage db with_db with_storage emit settings with_settings
         with_groups row_value set_value].
  rewrite after_delete_trace. cbn [trace with_db emit].
  split; [|split; [reflexivity|split; [reflexivity|]]].
  - rewrite <- !app_assoc. reflexivity.
  - now apply settings_get_after_save.
Qed.

Lemma setitem_clear_run (v : PyVal) :
  is_new_upload v = false ->
  truthy v = false ->
  _is_file_setting g c = true ->
  exists w',
    AppSettingDict.__setitem__ label v w = (Ok tt, w')
    /\ trace w' = (trace w ++ [EvTouch (group__group_name row)]
                    ++ (if truthy old then [EvDelete old] else [])
                    ++ [EvRowSave pk v])%list
    /\ storage w' = cleared
    /\ settings (db w') = <[pk := set_value v row]> (settings (db w))
    /\ settings_get g c (db w') = Ok (pk, set_value v row).
Proof.
  intros Hnew Hfalsy Hfile.
  rewrite (setitem_parts label a b c v w Hlabel).
  fold g. rewrite Hrow. cbv beta iota zeta. rewrite Htouch.
  cbv beta iota zeta. rewrite Hnew, Hfalsy, Hfile.
  cbn [negb andb]. fold old.
  unfold setting_save, row_save.
  cbn [db emit with_storage with_db write_fault with_groups].
  rewrite after_delete_db. cbn [db with_db write_fault with_groups emit].
  rewrite Hwrite. eexists. split; [reflexivity|].
  cbn [trace storage db with_db with_storage emit settings with_settings
         with_groups row_value set_value].
  rewrite after_delete_trace, after_delete_storage.
  cbn [trace storage with_db emit].
  split; [|split; [reflexivity|split; [reflexivity|]]].
  - rewrite <- !app_assoc. reflexivity.
  - now apply settings_get_after_save.
Qed.

End Lifecycle.

(** ** The admin's [save_model], field by field *)

Section SaveModel.

Context {S : Type} `{Framework S}.

Variables (model : ModelClass) (field_name : string) (field : Field)
  (rest : list (string * PyVal)) (w : World S).

Hypothesis Hpublic :
  existsb (String.eqb field_name) (_internal_fields model) = false.
Hypothesis Hfield : get_field model field_name = Ok field.

Lemma save_model_file_False :
  isinstance_FileField (Some field) = true ->
  SettingGroupAdmin.save_model model ((field_name, VBool false) :: rest) w
  = (AppSettingDict.__setitem__
       (str_join "." [name_from_class model; field_name]) VNone;;;
     SettingGroupAdmin.save_model model rest) w.
Proof.
  intros Hfile. cbn [SettingGroupAdmin.save_model]. rewrite Hpublic.
  unfold bind at 1, lift. rewrite Hfield, Hfile. reflexivity.
Qed.

Lemma save_model_file_keep (v : PyVal) :
  isinstance_FileField (Some field) = true ->
  is_False v = false -> truthy v = false ->
  SettingGroupAdmin.save_model model ((field_name, v) :: rest) w
  = SettingGroupAdmin.save_model model rest w.
Proof.
  intros Hfile Hnot Hfalsy. cbn [SettingGroupAdmin.save_model].
  rewrite Hpublic. unfold bind at 1, lift.
  rewrite Hfield, Hfile, Hnot, Hfalsy. reflexivity.
Qed.

Lemma save_model_write (v : PyVal) :
  (isinstance_FileField (Some field) = true -> truthy v = true) ->
  SettingGroupAdmin.save_model model ((field_name, v) :: rest) w
  = (AppSettingDict.__setitem__
       (str_join "." [name_from_class model; field_name]) v;;;
     SettingGroupAdmin.save_model model rest) w.
Proof.
  intros Hv. cbn [SettingGroupAdmin.save_model]. rewrite Hpublic.
  unfold bind at 1, lift. rewrite Hfield.
  destruct (isinstance_FileField (Some field)); [|reflexivity].
  specialize (Hv eq_refl).
  assert (Hnot : is_False v = false).
  { destruct v as [| [|] | | | |]; try reflexivity. discriminate. }
  rewrite Hnot, Hv. reflexivity.
Qed.

End SaveModel.

(** C1, as the code has it.  On a new upload (a [File] that is not a
    [FieldFile]) named by a string, [__setitem__] deletes the storage name
    stored before (the [name] of a stored file object, else the stored
    value itself), saves the file under
    [app_settings/<app>/<model>/<setting>/<base name, or upload>] and
    stores the name the save returned; an upload with an empty name is
    such an upload.  On a falsy value that is not such a [File], for a
    [FileField] setting, it deletes the file stored before and stores the
    value.  The admin's [save_model] turns a cleaned [FileField] value of
    [False] into a write of [None] through the accessor and leaves the
    stored value alone for [None] and for the empty string. *)
Theorem file_lifecycle_on_write {S : Type} `{Framework S} :
  (forall (label a b c : string) (pk : nat) (row : ApplicationSetting)
          (gs : list SettingGroup) (w : World S),
      str_split "."%char label = [a; b; c] ->
      settings_get (str_join "." [a; b]) c (db w) = Ok (pk, row) ->
      touch_last_modified (group__group_name row) (groups (db w)) = Ok gs ->
      write_fault (db w) = None ->
      let old :=
        match row_value row with
        | VFile n _ | VFieldFile n _ => if truthy n then n else VStr ""
        | other => other
        end in
      let cleared :=
        if truthy old then snd (storage_delete old (storage w))
        else storage w in
      (forall (n body saved : string) (s' : S),
          let v := VFile (VStr n) body in
          let path :=
            "app_settings/" +:+ a +:+ "/" +:+ b +:+ "/" +:+ c +:+ "/"
              +:+ (if String.eqb (basename n) "" then "upload"
                   else basename n) in
          storage_save path v cleared = (Ok saved, s') ->
          exists w',
            AppSettingDict.__setitem__ label v w = (Ok tt, w')
            /\ trace w' = (trace w ++ [EvTouch (group__group_name row)]
                            ++ (if truthy old then [EvDelete old] else [])
                            ++ [EvSave path; EvRowSave pk (VStr saved)])%list
            /\ storage w' = s'
            /\ settings (db w')
               = <[pk := set_value (VStr saved) row]> (settings (db w))
            /\ settings_get (str_join "." [a; b]) c (db w')
               = Ok (pk, set_value (VStr saved) row))
      /\ (forall v : PyVal,
            (forall n body, v <> VFile n body) ->
            truthy v = false ->
            _is_file_setting (str_join "." [a; b]) c = true ->
            exists w',
              AppSettingDict.__setitem__ label v w = (Ok tt, w')
              /\ trace w' = (trace w ++ [EvTouch (group__group_name row)]
                              ++ (if truthy old then [EvDelete old] else [])
                              ++ [EvRowSave pk v])%list
              /\ storage w' = cleared
              /\ settings (db w') = <[pk := set_value v row]> (settings (db w))
              /\ settings_get (str_join "." [a; b]) c (db w')
                 = Ok (pk, set_value v row)))
  /\ (forall (model : ModelClass) (field_name : string) (field : Field)
             (rest : list (string * PyVal)) (w : World S),
        existsb (String.eqb field_name) (_internal_fields model) = false ->
        get_field model field_name = Ok field ->
        isinstance_FileField (Some field) = true ->
        SettingGroupAdmin.save_model model ((field_name, VBool false) :: rest) w
        = (AppSettingDict.__setitem__
             (str_join "." [name_from_class model; field_name]) VNone;;;
           SettingGroupAdmin.save_model model rest) w
        /\ SettingGroupAdmin.save_model model ((field_name, VNone) :: rest) w
           = SettingGroupAdmin.save_model model rest w
        /\ SettingGroupAdmin.save_model model ((field_name, VStr "") :: rest) w
           = SettingGroupAdmin.save_model model rest w
        /\ SettingGroupAdmin.save_model model [(field_name, VNone)] w
           = (Ok tt, w)
        /\ SettingGroupAdmin.save_model model [(field_name, VStr "")] w
           = (Ok tt, w)).
Proof.
  split.
  - intros label a b c pk row gs w Hlabel Hrow Htouch Hwrite old cleared.
    assert (Hold : old = _extract_storage_value (row_value row))
      by (subst old; now destruct (row_value row)).
    clearbody old. subst old. split.
    + intros n body saved s' v path Hsave.
      apply (setitem_upload_run label a b c pk row gs w Hlabel Hrow Htouch
               Hwrite v path saved s'); [reflexivity | reflexivity | exact Hsave].
    + intros v Hnot Hfalsy Hfile.
      apply (setitem_clear_run label a b c pk row gs w Hlabel Hrow Htouch
               Hwrite v); [|assumption|assumption].
      destruct v as [| | | |n body|n body]; try reflexivity.
      now destruct (Hnot n body).
  - intros model field_name field rest w Hpublic Hfield Hfile.
    split; [now apply (save_model_file_False model field_name field)|].
    repeat split;
      now rewrite (save_model_file_keep model field_name field).
Qed.

Lemma file_lifecycle_on_write_witness :
  let old_name := VStr "app_settings/site/branding/logo/old.png" in
  let new_name := "app_settings/site/branding/logo/new.png" in
  let fallback := "app_settings/site/branding/logo/upload" in
  (exists w',
      AppSettingDict.__setitem__ "site.branding.logo" upload fieldfile_world
      = (Ok tt, w')
      /\ trace w' = [EvTouch "site.branding"; EvDelete old_name;
                     EvSave new_name; EvRowSave 1 (VStr new_name)]
      /\ storage w' = mem_store [(new_name, "NEW")]
      /\ settings (db w')
         = [demo_title; set_value (VStr new_name) demo_logo_file])
  /\ (exists w',
        AppSettingDict.__setitem__ "site.branding.logo" unnamed_upload
          demo_world = (Ok tt, w')
        /\ trace w' = [EvTouch "site.branding"; EvDelete old_name;
                       EvSave fallback; EvRowSave 1 (VStr fallback)]
        /\ settings (db w') = [demo_title; set_value (VStr fallback) demo_logo])
  /\ (exists w',
        AppSettingDict.__setitem__ "site.branding.logo" (VStr "")
          fieldfile_world = (Ok tt, w')
        /\ trace w' = [EvTouch "site.branding"; EvDelete old_name;
                       EvRowSave 1 (VStr "")]
        /\ storage w' = mem_store []
        /\ settings (db w') = [demo_title; set_value (VStr "") demo_logo_file])
  /\ SettingGroupAdmin.save_model branding [("logo", VNone)] demo_world
     = (Ok tt, demo_world)
  /\ SettingGroupAdmin.save_model branding [("logo", VBool false)] demo_world
     = AppSettingDict.__setitem__ "site.branding.logo" VNone demo_world.
Proof.
  intros old_name new_name fallback.
  destruct (@file_lifecycle_on_write MemStorage _) as (Hset & Hadmin).
  destruct (Hset "site.branding.logo" "site" "branding" "logo" 1
              demo_logo_file
              [ {| group_name := "site.branding"; last_modified := 1 |} ]
              fieldfile_world eq_refl eq_refl eq_refl eq_refl)
    as (Hupload & Hclear).
  destruct (Hset "site.branding.logo" "site" "branding" "logo" 1 demo_logo
              [ {| group_name := "site.branding"; last_modified := 1 |} ]
              demo_world eq_refl eq_refl eq_refl eq_refl)
    as (Hunnamed & _).
  destruct (Hupload "/tmp/uploads/new.png" "NEW" new_name
              (mem_store [(new_name, "NEW")]) eq_refl)
    as (w1 & Hrun1 & Htrace1 & Hstore1 & Hrows1 & _).
  destruct (Hunnamed "" "NEW" fallback (mem_store [(fallback, "NEW")]) eq_refl)
    as (w3 & Hrun3 & Htrace3 & _ & Hrows3 & _).
  destruct (Hclear (VStr "")) as (w2 & Hrun2 & Htrace2 & Hstore2 & Hrows2 & _);
    [discriminate | reflexivity | reflexivity |].
  destruct (Hadmin branding "logo" FileField [] demo_world
              eq_refl eq_refl eq_refl)
    as (Hfalse & _ & _ & Hkeep & _).
  split; [|split; [|split; [|split]]].
  - exists w1. auto.
  - exists w3. auto.
  - exists w2. auto.
  - exact Hkeep.
  - rewrite Hfalse. unfold bind.
    now destruct (AppSettingDict.__setitem__ _ VNone demo_world) as [[[]|e] w'].
Defined.

(** C1, as the spec words it, fails.  An upload with an empty name is a
    falsy value, the logo is a [FileField] setting and the write succeeds,
    yet what is stored is the name under which the storage saved the
    upload, not the falsy value.  And an upload without any name is a
    [File] that is not a [FieldFile], yet nothing is saved for it: the
    write raises [TypeError]. *)
Lemma falsy_upload_is_not_stored_as_is :
  is_new_upload nameless_upload = true
  /\ fst (AppSettingDict.__setitem__ "site.branding.logo" nameless_upload
            demo_world) = Raise TypeError
  /\ truthy unnamed_upload = false
  /\ @_is_file_setting MemStorage _ "site.branding" "logo" = true
  /\ (exists w',
        AppSettingDict.__setitem__ "site.branding.logo" unnamed_upload
          demo_world = (Ok tt, w')
        /\ settings_get "site.branding" "logo" (db w')
           = Ok (1, set_value (VStr "app_settings/site/branding/logo/upload")
                      demo_logo))
  /\ ~ (exists w' pk row,
          AppSettingDict.__setitem__ "site.branding.logo" unnamed_upload
            demo_world = (Ok tt, w')
          /\ settings_get "site.branding" "logo" (db w') = Ok (pk, row)
          /\ row_value row = unnamed_upload).
Proof.
  split; [reflexivity|]. split; [reflexivity|].
  split; [reflexivity|]. split; [reflexivity|]. split.
  - exists (snd (AppSettingDict.__setitem__ "site.branding.logo"
                   unnamed_upload demo_world)).
    split; vm_compute; reflexivity.
  - intros (w' & pk & row & Hrun & Hget & Hvalue).
    vm_compute in Hrun. injection Hrun as <-.
    vm_compute in Hget. injection Hget as <- <-.
    vm_compute in Hvalue. discriminate.
Qed.

(** ** The store is keyed by group and name *)

Lemma setting_filter_true (g n : string) (r : ApplicationSetting) :
  setting_filter g n r = true <-> group__group_name r = g /\ row_name r = n.
Proof.
  unfold setting_filter. rewrite andb_true_iff, !String.eqb_eq. tauto.
Qed.

(** A successful lookup is a resolution to exactly one row, and back. *)
Lemma settings_get_resolves (g n : string) (d : DB) (pk : nat)
  (row : ApplicationSetting) :
  settings_get g n d = Ok (pk, row) <->
  read_fault d = None /\ resolves d g n pk row.
Proof.
  unfold settings_get, resolves. rewrite manager_get_Ok. unfold the_one.
  split.
  - intros (Hf & Hl & Hp & Huniq). apply setting_filter_true in Hp as (Hg & Hn).
    repeat split; auto.
    intros pk' row' Hl' Hg' Hn'. apply (Huniq pk' row' Hl').
    now apply setting_filter_true.
  - intros (Hf & Hl & Hg & Hn & Huniq). repeat split; auto.
    + now apply setting_filter_true.
    + intros pk' row' Hl' Hp'. apply setting_filter_true in Hp' as (Hg' & Hn').
      eauto.
Qed.

Section Keyed.

Context {S : Type} `{Framework S}.

Lemma setting_save_inv (pk : nat) (r : ApplicationSetting) (w w' : World S) :
  setting_save pk r w = (Ok tt, w') ->
  write_fault (db w) = None
  /\ db w' = with_settings (<[pk := r]> (settings (db w))) (db w).
Proof.
  unfold setting_save, row_save. cbn [db emit].
  destruct (write_fault (db w)); [discriminate|].
  intros [= <-]. auto.
Qed.

(** What a completed [__setitem__] did to the table. *)
Lemma setitem_Ok_inv (label a b c : string) (v : PyVal) (w w' : World S) :
  str_split "."%char label = [a; b; c] ->
  AppSettingDict.__setitem__ label v w = (Ok tt, w') ->
  exists pk row v',
    settings_get (str_join "." [a; b]) c (db w) = Ok (pk, row)
    /\ settings (db w') = <[pk := set_value v' row]> (settings (db w))
    /\ read_fault (db w') = read_fault (db w)
    /\ (is_new_upload v = false -> v' = v).
Proof.
  intros Hs. rewrite (setitem_parts label a b c v w Hs).
  destruct (settings_get _ c (db w)) as [[pk row]|e]; [|discriminate].
  cbv beta iota zeta.
  destruct (touch_last_modified _ (groups (db w))) as [gs|e]; [|discriminate].
  destruct (is_new_upload v).
  - destruct (_storage_path_for a b c (attr_name v)) as [path|e];
      [|discriminate].
    destruct (storage_save path v _) as [[saved|e] s']; [|discriminate].
    intros Hsave. apply setting_save_inv in Hsave as (_ & Hdb).
    cbn [db with_storage emit] in Hdb. rewrite after_delete_db in Hdb.
    exists pk, row, (VStr saved). rewrite Hdb. repeat split. discriminate.
  - intros Hsave. apply setting_save_inv in Hsave as (_ & Hdb).
    assert (Hsame : db (if negb (truthy v)
                             && _is_file_setting (str_join "." [a; b]) c
                        then after_delete (_extract_storage_value (row_value row))
                               (with_db (with_groups gs (db w))
                                  (emit (EvTouch (group__group_name row)) w))
                        else with_db (with_groups gs (db w))
                               (emit (EvTouch (group__group_name row)) w))
                    = with_groups gs (db w)).
    { destruct (negb (truthy v) && _is_file_setting _ c);
        [rewrite after_delete_db|]; reflexivity. }
    rewrite Hsame in Hdb.
    exists pk, row, v. rewrite Hdb. repeat split.
Qed.

End Keyed.

(** C3.  For a three-part label ["app.model.setting"], [__getitem__] and
    [__setitem__] resolve exactly one [ApplicationSetting] row: the row whose
    group's [group_name] is ["app.model"] and whose [name] is ["setting"].
    Two labels that split to the same pair are the same key: what is
    written under one is read under the other. *)
Theorem store_keyed_by_group_and_name
  {S : Type} `{Framework S} (label a b c : string) (w : World S) :
  str_split "."%char label = [a; b; c] ->
  let g := str_join "." [a; b] in
  g = a +:+ "." +:+ b
  /\ (forall v w',
        AppSettingDict.__getitem__ label w = (Ok v, w') ->
        read_fault (db w) = Some ProgrammingError \/
        exists pk row,
          resolves (db w) g c pk row
          /\ (_is_file_setting g c = false -> v = row_value row))
  /\ (forall pk row,
        read_fault (db w) = None ->
        resolves (db w) g c pk row ->
        AppSettingDict.__getitem__ label w
        = if _is_file_setting g c
          then _open_as_django_file (_extract_storage_value (row_value row)) w
          else (Ok (row_value row), w))
  /\ (forall v w',
        AppSettingDict.__setitem__ label v w = (Ok tt, w') ->
        exists pk row v',
          resolves (db w) g c pk row
          /\ settings (db w') = <[pk := set_value v' row]> (settings (db w))
          /\ resolves (db w') g c pk (set_value v' row)
          /\ (is_new_upload v = false -> v' = v))
  /\ (forall label2 a2 b2 c2,
        str_split "."%char label2 = [a2; b2; c2] ->
        str_join "." [a2; b2] = g -> c2 = c ->
        label2 = label
        /\ forall v w',
             is_new_upload v = false ->
             _is_file_setting g c = false ->
             AppSettingDict.__setitem__ label v w = (Ok tt, w') ->
             AppSettingDict.__getitem__ label2 w' = (Ok v, w')).
Proof.
  intros Hs g. split; [reflexivity|]. split; [|split; [|split]].
  - intros v w'. rewrite (getitem_parts label a b c w Hs). fold g.
    destruct (settings_get g c (db w)) as [[pk row]|e] eqn:Hget.
    + intros Hrun. right. exists pk, row.
      apply settings_get_resolves in Hget as (_ & Hres).
      split; [assumption|]. intros Hplain. rewrite Hplain in Hrun.
      now injection Hrun as <- _.
    + destruct e; simpl; try discriminate. intros _. left.
      unfold settings_get, manager_get in Hget.
      destruct (read_fault (db w)) as [e|]; [congruence|].
      destruct (select_from 0 _ _) as [|x [|y t]]; discriminate.
  - intros pk row Hfault Hres.
    rewrite (getitem_parts label a b c w Hs). fold g.
    now rewrite (proj2 (settings_get_resolves g c (db w) pk row)
                   (conj Hfault Hres)).
  - intros v w' Hrun.
    destruct (setitem_Ok_inv label a b c v w w' Hs Hrun)
      as (pk & row & v' & Hget & Hrows & Hfault & Hv').
    fold g in Hget. exists pk, row, v'.
    pose proof (settings_get_after_save g c pk row v' (db w) (groups (db w))
                  Hget) as Hafter.
    apply settings_get_resolves in Hget as (Hf & Hres).
    apply settings_get_resolves in Hafter as (_ & Hres').
    unfold resolves in *. cbn [settings with_settings] in Hres'.
    rewrite Hrows. auto.
  - intros label2 a2 b2 c2 Hs2 Hg2 Hc2.
    assert (Hsame : label2 = label).
    { rewrite (label_of_parts label a b c Hs),
        (label_of_parts label2 a2 b2 c2 Hs2), Hg2, Hc2. reflexivity. }
    split; [exact Hsame|]. subst label2. clear Hg2 Hc2 Hs2.
    intros v w' Hnew Hplain Hrun.
    destruct (setitem_Ok_inv label a b c v w w' Hs Hrun)
      as (pk & row & v' & Hget & Hrows & Hfault & Hv').
    fold g in Hget. rewrite (Hv' Hnew) in Hrows.
    pose proof (settings_get_after_save g c pk row v (db w) (groups (db w))
                  Hget) as Hafter.
    apply settings_get_resolves in Hget as (Hf & _).
    rewrite (getitem_parts label a b c w' Hs). fold g.
    assert (Hget' : settings_get g c (db w') = Ok (pk, set_value v row)).
    { apply settings_get_resolves in Hafter as (_ & Hres').
      apply settings_get_resolves. split; [congruence|].
      unfold resolves in *. cbn [settings with_settings] in Hres'.
      now rewrite Hrows. }
    rewrite Hget', Hplain. reflexivity.
Qed.

Lemma store_keyed_by_group_and_name_witness :
  resolves (db demo_world) "site.branding" "title" 0 demo_title
  /\ AppSettingDict.__getitem__ "site.branding.title" demo_world
     = (Ok (VStr "Acme"), demo_world)
  /\ exists w',
       AppSettingDict.__setitem__ "site.branding.title" (VStr "Zenith")
         demo_world = (Ok tt, w')
       /\ AppSettingDict.__getitem__ "site.branding.title" w'
          = (Ok (VStr "Zenith"), w').
Proof.
  destruct (store_keyed_by_group_and_name "site.branding.title" "site"
              "branding" "title" demo_world eq_refl)
    as (_ & Hread & Hfound & Hwrite & Hsame).
  destruct (Hread (VStr "Acme") demo_world eq_refl)
    as [Hfault | (pk & row & Hres & Hval)]; [discriminate|].
  assert (Hres0 : resolves (db demo_world) "site.branding" "title" 0 demo_title).
  { destruct Hres as (Hl & Hg & Hn & Huniq).
    pose proof (Huniq 0 demo_title eq_refl eq_refl eq_refl) as Hpk.
    subst pk. injection Hl as <-. repeat split; auto. }
  split; [exact Hres0|]. split.
  - apply (Hfound 0 demo_title eq_refl Hres0).
  - destruct (AppSettingDict.__setitem__ "site.branding.title" (VStr "Zenith")
                demo_world) as [r w'] eqn:Hrun.
    assert (Hr : r = Ok tt) by (vm_compute in Hrun; congruence).
    subst r. exists w'. split; [reflexivity|].
    destruct (Hsame "site.branding.title" "site" "branding" "title"
                eq_refl eq_refl eq_refl) as (_ & Hround).
    apply Hround; [reflexivity | reflexivity | exact Hrun].
Defined.

(** ** Exceptions: what is swallowed, what is translated, what passes *)

Section Exceptions.

Context {S : Type} `{Framework S}.


End Exceptions.




(** ** The admin URLs *)

Lemma find_callback (q : URLPattern -> bool) (x y : URLPattern) :
  callback x = ChangeView -> callback y = ChangeView ->
  q x = true \/ q y = true ->
  match List.find q [x; y] with
  | Some p => Some (callback p)
  | None => None
  end = Some ChangeView.
Proof.
  intros Hx Hy Hq. simpl. destruct (q x); [now rewrite Hx|].
  destruct Hq as [Hq | Hq]; [discriminate|]. rewrite Hq. now rewrite Hy.
Qed.

(** C7.  The change URL and the changelist URL of a setting group's admin
    both dispatch to the change view, no pattern dispatches anywhere else,
    and [has_add_permission] is [False] for every request. *)
Theorem singleton_admin_page (model : ModelClass) :
  let app := meta_app_label model in
  let name := meta_model_name model in
  view_named (app +:+ "_" +:+ name +:+ "_change")
    (SettingGroupAdmin.get_urls model) = Some ChangeView
  /\ view_named (app +:+ "_" +:+ name +:+ "_changelist")
       (SettingGroupAdmin.get_urls model) = Some ChangeView
  /\ List.map url_name (SettingGroupAdmin.get_urls model)
     = [app +:+ "_" +:+ name +:+ "_change";
        app +:+ "_" +:+ name +:+ "_changelist"]
  /\ (forall p, In p (SettingGroupAdmin.get_urls model) ->
        callback p = ChangeView /\ route p = "")
  /\ resolve "" (SettingGroupAdmin.get_urls model) = Some ChangeView
  /\ (forall path v,
        resolve path (SettingGroupAdmin.get_urls model) = Some v ->
        v = ChangeView)
  /\ (forall request, SettingGroupAdmin.has_add_permission request = false).
Proof.
  intros app name. unfold view_named, resolve, SettingGroupAdmin.get_urls.
  fold app name.
  split; [|split; [|split; [|split; [|split; [|split]]]]].
  - apply find_callback; try reflexivity. left. apply String.eqb_refl.
  - apply find_callback; try reflexivity. right. apply String.eqb_refl.
  - reflexivity.
  - intros p [<- | [<- | []]]; split; reflexivity.
  - reflexivity.
  - intros path v. destruct path; simpl; intros Hv;
      [now injection Hv as <- | discriminate].
  - reflexivity.
Qed.

Lemma singleton_admin_page_witness :
  view_named "site_branding_change" (SettingGroupAdmin.get_urls branding)
  = Some ChangeView
  /\ view_named "site_branding_changelist" (SettingGroupAdmin.get_urls branding)
     = Some ChangeView
  /\ resolve "add/" (SettingGroupAdmin.get_urls branding) = None.
Proof.
  destruct (singleton_admin_page branding)
    as (Hchange & Hlist & _ & _ & _ & Honly & _).
  split; [exact Hchange|]. split; [exact Hlist|].
  destruct (resolve "add/" (SettingGroupAdmin.get_urls branding)) as [v|] eqn:Hv;
    [|reflexivity].
  pose proof (Honly "add/" v Hv) as ->. vm_compute in Hv. discriminate.
Defined.

(** ** The change form runs in one transaction *)

Section TraceFacts.

Context {S : Type} `{Framework S}.

Lemma appends_ret {A} (a : A) : appends (ret (S := S) a).
Proof. intros w. exists []. simpl. now rewrite app_nil_r. Qed.

Lemma appends_raise {A} (e : exn) : appends (raise (S := S) (A := A) e).
Proof. intros w. exists []. simpl. now rewrite app_nil_r. Qed.

Lemma appends_lift {A} (r : result A) : appends (lift (S := S) r).
Proof. intros w. exists []. simpl. now rewrite app_nil_r. Qed.

Lemma appends_bind {A B} (m : M S A) (k : A -> M S B) :
  appends m -> (forall a, appends (k a)) -> appends (bind m k).
Proof.
  intros Hm Hk w. unfold bind. destruct (Hm w) as (evs & Ht & Hq).
  destruct (m w) as [[a|e] w1]; simpl in *.
  - destruct (Hk a w1) as (evs' & Ht' & Hq'). exists (evs ++ evs')%list.
    rewrite Ht', Ht, app_assoc. split; [reflexivity|].
    apply Forall_app. auto.
  - exists evs. auto.
Qed.

Lemma appends_attempt {A} (m : M S A) : appends m -> appends (attempt m).
Proof.
  intros Hm w. unfold attempt. destruct (Hm w) as (evs & Ht & Hq).
  destruct (m w) as [r w1]. exists evs. auto.
Qed.

(** A call that records one event, none of them a transaction event. *)
Lemma appends_one {A} (m : M S A) (ev : Event) :
  is_tx ev = false ->
  (forall w, trace (snd (m w)) = (trace w ++ [ev])%list) ->
  appends m.
Proof. intros Hev Hm w. exists [ev]. split; [apply Hm|]. auto. Qed.

Lemma appends_silent {A} (m : M S A) :
  (forall w, trace (snd (m w)) = trace w) -> appends m.
Proof. intros Hm w. exists []. rewrite Hm, app_nil_r. auto. Qed.

Lemma appends_storage_delete (n : PyVal) : appends (default_storage_delete n).
Proof.
  apply (appends_one _ (EvDelete n)); [reflexivity|]. intros w.
  unfold default_storage_delete. now destruct (storage_delete n _).
Qed.

Lemma appends_storage_save (path : string) (v : PyVal) :
  appends (default_storage_save path v).
Proof.
  apply (appends_one _ (EvSave path)); [reflexivity|]. intros w.
  unfold default_storage_save. now destruct (storage_save path v _).
Qed.

Lemma appends_storage_open (n : PyVal) : appends (default_storage_open n).
Proof.
  apply (appends_one _ (EvOpen n)); [reflexivity|]. intros w.
  unfold default_storage_open. now destruct (storage_open n _).
Qed.

Lemma appends_setting_save (pk : nat) (r : ApplicationSetting) :
  appends (S := S) (setting_save pk r).
Proof.
  apply (appends_one _ (EvRowSave pk (row_value r))); [reflexivity|].
  intros w. unfold setting_save. now destruct (row_save pk r _).
Qed.

Lemma appends_touch (g : string) : appends (touch g).
Proof.
  apply (appends_one _ (EvTouch g)); [reflexivity|]. intros w.
  unfold touch. now destruct (touch_last_modified g _).
Qed.

Lemma appends_objects_get (g n : string) :
  appends (S := S) (objects_get g n).
Proof. now apply appends_silent. Qed.

Lemma appends_setting_group_get (g : string) :
  appends (S := S) (setting_group_get g).
Proof. now apply appends_silent. Qed.

Lemma appends_delete_storage_name (n : PyVal) :
  appends (_delete_storage_name n).
Proof.
  unfold _delete_storage_name. destruct (truthy n); simpl.
  - apply appends_bind; [|intros; apply appends_ret].
    apply appends_attempt, appends_storage_delete.
  - apply appends_ret.
Qed.

Lemma appends_setitem (label : string) (v : PyVal) :
  appends (AppSettingDict.__setitem__ label v).
Proof.
  unfold AppSettingDict.__setitem__.
  apply appends_bind; [apply appends_lift|]. intros [[a b] c].
  apply appends_bind; [apply appends_objects_get|]. intros [pk row].
  apply appends_bind; [apply appends_touch|]. intros _.
  destruct (isinstance_File v && negb (isinstance_FieldFile v)).
  - apply appends_bind; [apply appends_delete_storage_name|]. intros _.
    apply appends_bind; [apply appends_lift|]. intros path.
    apply appends_bind; [apply appends_storage_save|]. intros saved.
    apply appends_setting_save.
  - apply appends_bind; [|intros; apply appends_setting_save].
    destruct (negb (truthy v)); [|apply appends_ret].
    destruct (_is_file_setting _ c);
      [apply appends_delete_storage_name | apply appends_ret].
Qed.

Lemma appends_save_model (model : ModelClass) (items : list (string * PyVal)) :
  appends (SettingGroupAdmin.save_model model items).
Proof.
  induction items as [|[field_name v] rest IH]; cbn [SettingGroupAdmin.save_model].
  - apply appends_ret.
  - destruct (existsb _ _); [exact IH|].
    apply appends_bind; [apply appends_lift|]. intros field.
    destruct (isinstance_FileField (Some field)).
    + destruct (is_False v).
      * apply appends_bind; [apply appends_setitem | intros; exact IH].
      * destruct (negb (truthy v)); [exact IH|].
        apply appends_bind; [apply appends_setitem | intros; exact IH].
    + apply appends_bind; [apply appends_setitem | intros; exact IH].
Qed.

Lemma appends_initial_data (model : ModelClass) :
  appends (S := S) (SettingGroupAdmin.get_changeform_initial_data model).
Proof.
  apply appends_silent. intros w.
  unfold SettingGroupAdmin.get_changeform_initial_data.
  now destruct (read_fault (db w)).
Qed.

Lemma appends_changeform (model : ModelClass) (request : Request) :
  appends (SettingGroupAdmin._changeform_view model request).
Proof.
  unfold SettingGroupAdmin._changeform_view.
  apply appends_bind; [apply appends_setting_group_get|]. intros _.
  destruct (method request).
  - destruct (negb (has_view_or_change_permission request));
      [apply appends_raise|].
    apply appends_bind; [apply appends_initial_data|]. intros _.
    apply appends_ret.
  - destruct (negb (has_change_permission request)); [apply appends_raise|].
    apply appends_bind; [apply appends_initial_data|]. intros _.
    destruct (cleaned_data request) as [cleaned|]; [|apply appends_ret].
    destruct (formsets_valid request); [|apply appends_ret].
    apply appends_bind; [apply appends_save_model|]. intros _.
    apply appends_bind; [apply appends_lift|]. intros _.
    apply appends_ret.
Qed.

End TraceFacts.

(** C8.  A change-form request runs in one atomic transaction: everything
    it does, every row write and every storage delete and save, lies
    between the transaction's begin and its commit or rollback, and when
    the request fails the database is what it was before the request. *)
Theorem changeform_in_one_transaction
  {S : Type} `{Framework S} (model : ModelClass) (request : Request)
  (w : World S) :
  let body := SettingGroupAdmin._changeform_view model request (emit EvBegin w) in
  let run := SettingGroupAdmin.changeform_view model request w in
  fst run = fst body
  /\ (exists evs,
        trace (snd body) = (trace w ++ [EvBegin] ++ evs)%list
        /\ Forall (fun e => is_tx e = false) evs
        /\ trace (snd run)
           = (trace w ++ [EvBegin] ++ evs
                ++ [match fst run with
                    | Ok _ => EvCommit
                    | Raise _ => EvRollback
                    end])%list)
  /\ (forall e, fst run = Raise e -> db (snd run) = db w)
  /\ (forall r, fst run = Ok r -> db (snd run) = db (snd body))
  /\ SettingGroupAdmin.change_view model request w = run.
Proof.
  intros body run. subst run.
  unfold SettingGroupAdmin.change_view, SettingGroupAdmin.changeform_view,
    SettingGroupAdmin.transaction_atomic.
  destruct (appends_changeform model request (emit EvBegin w))
    as (evs & Htrace & Hquiet).
  fold body in Htrace. cbn [trace emit] in Htrace.
  rewrite <- app_assoc in Htrace.
  fold body. destruct body as [[r|e] w1]; cbn [fst snd] in *.
  - split; [reflexivity|]. split; [|split; [discriminate|auto]].
    exists evs. cbn [trace emit]. rewrite Htrace, <- !app_assoc. auto.
  - split; [reflexivity|]. split; [|split; [auto|split; [discriminate|auto]]].
    exists evs. cbn [trace emit with_db]. rewrite Htrace, <- !app_assoc. auto.
Qed.

Lemma changeform_in_one_transaction_witness :
  let run := SettingGroupAdmin.changeform_view branding demo_post
               broken_save_world in
  fst run = Raise (OSError "save")
  /\ db (snd run) = db broken_save_world
  /\ trace (snd run)
     = [EvBegin;
        EvTouch "site.branding"; EvRowSave 0 (VStr "New");
        EvTouch "site.branding"; EvDelete (row_value demo_logo);
        EvSave "app_settings/site/branding/logo/new.png";
        EvRollback].
Proof.
  intros run.
  destruct (changeform_in_one_transaction branding demo_post broken_save_world)
    as (_ & _ & Hrollback & _).
  split; [reflexivity|]. split; [|reflexivity].
  apply (Hrollback (OSError "save")). reflexivity.
Defined.

(** The rollback is the database's alone: in the failed request above the
    old logo was deleted from storage before the save failed, and it stays
    deleted although the row, rolled back, names it again. *)
Remark storage_outlives_rollback :
  let run := SettingGroupAdmin.changeform_view branding demo_post
               broken_save_world in
  settings_get "site.branding" "logo" (db (snd run)) = Ok (1, demo_logo)
  /\ file_lookup "app_settings/site/branding/logo/old.png"
       (files (storage broken_save_world)) = Some "OLD"
  /\ file_lookup "app_settings/site/branding/logo/old.png"
       (files (storage (snd run))) = None.
Proof. repeat split. Qed.

(** * Further properties of the code *)

(** ** Where an upload is stored *)

Lemma str_split_singleton (sep : ascii) (s h : string) :
  str_split sep s = [h] -> s = h.
Proof.
  intros Hs. rewrite <- (str_join_split sep s), Hs. reflexivity.
Qed.

Lemma str_split_no_sep (sep : ascii) (s : string) :
  Forall (fun part => has_char sep part = false) (str_split sep s).
Proof.
  induction s as [|c rest IH]; simpl.
  - constructor; [reflexivity | constructor].
  - destruct (Ascii.eqb c sep) eqn:Hc.
    + constructor; [reflexivity | exact IH].
    + destruct (str_split sep rest) as [|h t].
      * constructor; [|constructor]. simpl. now rewrite Hc.
      * inversion IH as [|? ? Hh Ht]; subst.
        constructor; [|exact Ht]. simpl. now rewrite Hc, Hh.
Qed.

Lemma last_cons_nonempty {A} (x : A) (l : list A) (d : A) :
  l <> [] -> List.last (x :: l) d = List.last l d.
Proof. destruct l; [congruence | reflexivity]. Qed.

Lemma basename_no_slash (p : string) : has_char "/"%char (basename p) = false.
Proof.
  unfold basename.
  pose proof (str_split_no_sep "/"%char p) as Hall.
  pose proof (str_split_nonempty "/"%char p) as Hne.
  induction (str_split "/"%char p) as [|h t IH]; [congruence|].
  inversion Hall as [|? ? Hh Ht]; subst.
  destruct t as [|h' t']; [exact Hh|].
  rewrite last_cons_nonempty by discriminate. apply IH; [exact Ht|discriminate].
Qed.

(** The base name is the end of the path. *)
Lemma basename_suffix (p : string) : exists dir, p = dir +:+ basename p.
Proof.
  unfold basename. induction p as [|c rest IH]; simpl.
  - now exists "".
  - destruct (Ascii.eqb c "/"%char) eqn:Hc.
    + rewrite last_cons_nonempty by apply str_split_nonempty.
      destruct IH as (dir & Hdir). exists (String c dir).
      rewrite append_cons. now rewrite <- Hdir.
    + destruct (str_split "/"%char rest) as [|h t] eqn:Hs.
      * now apply str_split_nonempty in Hs.
      * destruct t as [|h' t'].
        -- apply str_split_singleton in Hs. subst h. now exists "".
        -- rewrite last_cons_nonempty by discriminate.
           rewrite last_cons_nonempty in IH by discriminate.
           destruct IH as (dir & Hdir). exists (String c dir).
           rewrite append_cons. now rewrite <- Hdir.
Qed.

(** X1.  For an upload named by a string, the path [__setitem__] asks the
    storage to save under lies in the setting's own directory,
    [app_settings/<app>/<model>/<setting>/], and ends in a file name that
    is not empty and has no slash in it: the end of the upload's name after
    its last slash, or [upload] when nothing follows it.  For a name that
    is [None], a [bool], an [int] or a file object no path is computed:
    [TypeError]. *)
Theorem storage_path_shape
  (app_label model_name setting_name : string) (filename : PyVal) :
  (forall n, filename = VStr n ->
     exists f,
       _storage_path_for app_label model_name setting_name filename
       = Ok ("app_settings/" +:+ app_label +:+ "/" +:+ model_name +:+ "/"
               +:+ setting_name +:+ "/" +:+ f)
       /\ f <> ""
       /\ has_char "/"%char f = false
       /\ (basename n <> "" -> f = basename n /\ exists dir, n = dir +:+ f)
       /\ (basename n = "" -> f = "upload"))
  /\ (filename = VNone
      \/ (exists b, filename = VBool b)
      \/ (exists z, filename = VInt z)
      \/ (exists n body, filename = VFile n body)
      \/ (exists n body, filename = VFieldFile n body) ->
      _storage_path_for app_label model_name setting_name filename
      = Raise TypeError).
Proof.
  split.
  - intros n ->. unfold _storage_path_for. cbn [os_path_basename].
    destruct (String.eqb (basename n) "") eqn:He.
    + apply String.eqb_eq in He. exists "upload".
      split; [reflexivity|]. split; [discriminate|]. split; [reflexivity|].
      split; [contradiction | reflexivity].
    + apply String.eqb_neq in He. exists (basename n).
      split; [reflexivity|]. split; [assumption|].
      split; [apply basename_no_slash|].
      split; [intros _; split; [reflexivity | apply basename_suffix]
             | contradiction].
  - intros [-> | [(b & ->) | [(z & ->) | [(n & body & ->) | (n & body & ->)]]]];
      reflexivity.
Qed.

Lemma storage_path_shape_witness :
  _storage_path_for "site" "branding" "logo" (VStr "../../etc/passwd")
  = Ok "app_settings/site/branding/logo/passwd"
  /\ _storage_path_for "site" "branding" "logo" (VStr "uploads/")
     = Ok "app_settings/site/branding/logo/upload"
  /\ _storage_path_for "site" "branding" "logo" VNone = Raise TypeError.
Proof.
  destruct (storage_path_shape "site" "branding" "logo"
              (VStr "../../etc/passwd")) as (Hnamed & _).
  destruct (Hnamed "../../etc/passwd" eq_refl)
    as (f & Hpath & _ & _ & Hbase & _).
  destruct (Hbase ltac:(vm_compute; discriminate)) as (-> & _).
  split; [exact Hpath|]. split; [reflexivity|].
  apply (storage_path_shape "site" "branding" "logo" VNone). now left.
Defined.

(** ** Labels that are not three parts *)

Lemma unpack3_not_three (parts : list string) :
  length parts <> 3 -> unpack3 parts = Raise ValueError.
Proof.
  destruct parts as [|a [|b [|c [|d t]]]]; simpl; try reflexivity.
  congruence.
Qed.

(** X2.  A label that does not split at its dots into exactly three parts
    is a [ValueError] from every method of the accessor, [get] and
    [__contains__] included, and nothing is queried, written or logged. *)
Theorem malformed_label_is_ValueError
  {S : Type} `{Framework S} (label : string) (v default : PyVal)
  (w : World S) :
  length (str_split "."%char label) <> 3 ->
  AppSettingDict.__getitem__ label w = (Raise ValueError, w)
  /\ AppSettingDict.__setitem__ label v w = (Raise ValueError, w)
  /\ AppSettingDict.get label default w = (Raise ValueError, w)
  /\ AppSettingDict.__contains__ label w = (Raise ValueError, w).
Proof.
  intros Hlen. apply unpack3_not_three in Hlen.
  assert (Hget := getitem_malformed label w Hlen).
  split; [exact Hget|]. split; [now apply setitem_malformed|].
  rewrite get_of_getitem, contains_of_getitem, Hget. auto.
Qed.

Lemma malformed_label_is_ValueError_witness :
  AppSettingDict.__getitem__ "site.branding" demo_world
  = (Raise ValueError, demo_world)
  /\ AppSettingDict.__setitem__ "site.branding" (VStr "x") demo_world
     = (Raise ValueError, demo_world)
  /\ AppSettingDict.get "site.branding" (VStr "fallback") demo_world
     = (Raise ValueError, demo_world)
  /\ AppSettingDict.__contains__ "site.branding" demo_world
     = (Raise ValueError, demo_world).
Proof.
  apply (malformed_label_is_ValueError "site.branding"). vm_compute. lia.
Defined.

(** ** Reading only reads *)

Section Reading.

Context {S : Type} `{Framework S}.

Lemma open_as_django_file_db (n : PyVal) (w : World S) :
  db (snd (_open_as_django_file n w)) = db w.
Proof.
  destruct (truthy n) eqn:Hn.
  - now rewrite open_as_django_file_truthy.
  - now rewrite open_as_django_file_falsy.
Qed.

Lemma open_as_django_file_trace (n : PyVal) (w : World S) :
  trace (snd (_open_as_django_file n w))
  = (trace w ++ (if truthy n then [EvOpen n] else []))%list.
Proof.
  destruct (truthy n) eqn:Hn.
  - now rewrite open_as_django_file_truthy.
  - rewrite open_as_django_file_falsy by assumption. simpl.
    now rewrite app_nil_r.
Qed.

End Reading.

(** X3.  Reading never writes: whatever the label and the outcome,
    [__getitem__] leaves the database as it is and adds to the trace at
    most one event, a storage open or an error log; for a setting that is
    not a file setting the storage is untouched as well.  [get] and
    [__contains__] leave the world [__getitem__] leaves. *)
Theorem getitem_only_reads
  {S : Type} `{Framework S} (label : string) (default : PyVal) (w : World S) :
  let w' := snd (AppSettingDict.__getitem__ label w) in
  db w' = db w
  /\ (trace w' = trace w
      \/ trace w' = (trace w ++ [EvLogError label])%list
      \/ exists n, trace w' = (trace w ++ [EvOpen n])%list)
  /\ (forall a b c,
        str_split "."%char label = [a; b; c] ->
        _is_file_setting (str_join "." [a; b]) c = false ->
        storage w' = storage w)
  /\ snd (AppSettingDict.get label default w) = w'
  /\ snd (AppSettingDict.__contains__ label w) = w'.
Proof.
  intros w'. subst w'.
  rewrite get_of_getitem, contains_of_getitem. cbn [snd].
  destruct (unpack3_cases (str_split "."%char label))
    as [(a & b & c & Hs) | Hbad].
  - rewrite (getitem_parts label a b c w Hs).
    split; [|split; [|split; [|auto]]].
    + destruct (settings_get _ c (db w)) as [[pk row]|e].
      * destruct (_is_file_setting _ c);
          [apply open_as_django_file_db | reflexivity].
      * destruct (is_ProgrammingError e); [reflexivity|].
        now destruct (is_ObjectDoesNotExist e).
    + destruct (settings_get _ c (db w)) as [[pk row]|e].
      * destruct (_is_file_setting _ c); [|now left].
        rewrite open_as_django_file_trace.
        destruct (truthy _); [right; right; eauto|].
        left. apply app_nil_r.
      * destruct (is_ProgrammingError e); [right; now left|].
        left. now destruct (is_ObjectDoesNotExist e).
    + intros a' b' c' Hs' Hplain. rewrite Hs in Hs'.
      injection Hs' as <- <- <-. rewrite Hplain.
      destruct (settings_get _ c (db w)) as [[pk row]|e]; [reflexivity|].
      destruct (is_ProgrammingError e); [reflexivity|].
      now destruct (is_ObjectDoesNotExist e).
  - rewrite (getitem_malformed label w Hbad). cbn [snd].
    split; [reflexivity|]. split; [now left|]. split; [|auto].
    intros a b c Hs. rewrite Hs in Hbad. discriminate.
Qed.

Lemma getitem_only_reads_witness :
  storage (snd (AppSettingDict.__getitem__ "site.branding.title" demo_world))
  = storage demo_world
  /\ db (snd (AppSettingDict.__getitem__ "site.branding.logo" demo_world))
     = db demo_world.
Proof.
  destruct (getitem_only_reads "site.branding.title" VNone demo_world)
    as (_ & _ & Hstorage & _).
  destruct (getitem_only_reads "site.branding.logo" VNone demo_world)
    as (Hdb & _).
  split; [|exact Hdb].
  apply (Hstorage "site" "branding" "title"); reflexivity.
Defined.

(** ** Two rows under one key *)

Lemma manager_get_two {A} (p : A -> bool) (rows : list A) (i j : nat)
  (r1 r2 : A) :
  i <> j -> rows !! i = Some r1 -> rows !! j = Some r2 ->
  p r1 = true -> p r2 = true ->
  manager_get None p rows = Raise MultipleObjectsReturned.
Proof.
  intros Hij Hi Hj H1 H2. unfold manager_get.
  assert (Hin1 : In (i, r1) (select_from 0 p rows)).
  { apply select_from_In. rewrite Nat.sub_0_r. auto with lia. }
  assert (Hin2 : In (j, r2) (select_from 0 p rows)).
  { apply select_from_In. rewrite Nat.sub_0_r. auto with lia. }
  destruct (select_from 0 p rows) as [|x [|y t]]; [destruct Hin1| |reflexivity].
  destruct Hin1 as [-> | []]. destruct Hin2 as [[= ? ?] | []]. congruence.
Qed.

(** X4.  When two rows of a sound table carry the label's group and name,
    the lookup's [MultipleObjectsReturned] is not caught: [__getitem__]
    raises it, [get] raises it instead of returning its default,
    [__contains__] raises it, and [__setitem__] raises it before it touches
    anything. *)
Theorem duplicate_rows_raise
  {S : Type} `{Framework S} (label a b c : string) (i j : nat)
  (r1 r2 : ApplicationSetting) (v default : PyVal) (w : World S) :
  str_split "."%char label = [a; b; c] ->
  read_fault (db w) = None ->
  i <> j ->
  settings (db w) !! i = Some r1 -> settings (db w) !! j = Some r2 ->
  row_key r1 = (str_join "." [a; b], c) ->
  row_key r2 = (str_join "." [a; b], c) ->
  AppSettingDict.__getitem__ label w = (Raise MultipleObjectsReturned, w)
  /\ AppSettingDict.get label default w = (Raise MultipleObjectsReturned, w)
  /\ AppSettingDict.__contains__ label w = (Raise MultipleObjectsReturned, w)
  /\ AppSettingDict.__setitem__ label v w = (Raise MultipleObjectsReturned, w).
Proof.
  intros Hs Hfault Hij Hi Hj Hk1 Hk2.
  assert (Hlookup : settings_get (str_join "." [a; b]) c (db w)
                    = Raise MultipleObjectsReturned).
  { unfold settings_get. rewrite Hfault.
    apply (manager_get_two _ _ i j r1 r2); auto;
      apply setting_filter_true; unfold row_key in *; split; congruence. }
  assert (Hget : AppSettingDict.__getitem__ label w
                 = (Raise MultipleObjectsReturned, w)).
  { rewrite (getitem_parts label a b c w Hs), Hlookup. reflexivity. }
  split; [exact Hget|].
  rewrite get_of_getitem, contains_of_getitem, Hget.
  split; [reflexivity|]. split; [reflexivity|].
  rewrite (setitem_parts label a b c v w Hs), Hlookup. reflexivity.
Qed.

Lemma duplicate_rows_raise_witness :
  AppSettingDict.__getitem__ "site.branding.title" duplicated_world
  = (Raise MultipleObjectsReturned, duplicated_world)
  /\ AppSettingDict.get "site.branding.title" (VStr "fallback") duplicated_world
     = (Raise MultipleObjectsReturned, duplicated_world)
  /\ AppSettingDict.__contains__ "site.branding.title" duplicated_world
     = (Raise MultipleObjectsReturned, duplicated_world)
  /\ AppSettingDict.__setitem__ "site.branding.title" (VStr "x")
       duplicated_world
     = (Raise MultipleObjectsReturned, duplicated_world).
Proof.
  apply (duplicate_rows_raise "site.branding.title" "site" "branding" "title"
           0 1 demo_title demo_title);
    try reflexivity. lia.
Defined.

(** ** What a write leaves alone *)

Lemma map_key_insert (rows : list ApplicationSetting) (pk : nat)
  (row : ApplicationSetting) (v : PyVal) :
  rows !! pk = Some row ->
  List.map row_key (<[pk := set_value v row]> rows) = List.map row_key rows.
Proof.
  revert pk. induction rows as [|x rest IH]; intros pk Hl; [reflexivity|].
  destruct pk as [|pk]; simpl in *.
  - now injection Hl as ->.
  - f_equal. now apply IH.
Qed.

Lemma select_from_insert_other {A} (p : A -> bool) (rows : list A)
  (i pk : nat) (r r' : A) :
  rows !! pk = Some r -> p r = false -> p r' = false ->
  select_from i p (<[pk := r']> rows) = select_from i p rows.
Proof.
  revert i pk. induction rows as [|x rest IH]; intros i pk Hl Hr Hr';
    [reflexivity|].
  destruct pk as [|pk]; simpl in *.
  - injection Hl as ->. now rewrite Hr, Hr'.
  - rewrite (IH (S i) pk Hl Hr Hr'). reflexivity.
Qed.

Section Frame.

Context {S : Type} `{Framework S}.

Lemma setting_save_db (pk : nat) (r : ApplicationSetting) (w : World S) :
  db (snd (setting_save pk r w)) = db w
  \/ db (snd (setting_save pk r w))
     = with_settings (<[pk := r]> (settings (db w))) (db w).
Proof.
  unfold setting_save, row_save. cbn [db emit].
  destruct (write_fault (db w)); [now left | now right].
Qed.

(** The database after [__setitem__], whatever its outcome: untouched, or
    touched in the group's stamp only, or with the one resolved row
    rewritten as well. *)
Lemma setitem_db (label a b c : string) (v : PyVal) (w : World S) :
  str_split "."%char label = [a; b; c] ->
  let w' := snd (AppSettingDict.__setitem__ label v w) in
  db w' = db w
  \/ exists pk row gs,
       settings_get (str_join "." [a; b]) c (db w) = Ok (pk, row)
       /\ (db w' = with_groups gs (db w)
           \/ exists v',
                db w' = with_settings
                          (<[pk := set_value v' row]> (settings (db w)))
                          (with_groups gs (db w))).
Proof.
  intros Hs w'. subst w'. rewrite (setitem_parts label a b c v w Hs).
  destruct (settings_get _ c (db w)) as [[pk row]|e]; [|now left].
  cbv beta iota zeta.
  destruct (touch_last_modified _ (groups (db w))) as [gs|e]; [|now left].
  right. exists pk, row, gs. split; [reflexivity|].
  destruct (is_new_upload v).
  - destruct (_storage_path_for a b c (attr_name v)) as [path|e];
      [|left; cbn [snd]; now rewrite after_delete_db].
    destruct (storage_save path v _) as [[saved|e] s'];
      [|left; cbn [snd db with_storage emit]; now rewrite after_delete_db].
    destruct (setting_save_db pk (set_value (VStr saved) row)
                (with_storage s'
                   (emit (EvSave path)
                      (after_delete (_extract_storage_value (row_value row))
                         (with_db (with_groups gs (db w))
                            (emit (EvTouch (group__group_name row)) w))))))
      as [Hdb | Hdb]; rewrite Hdb; cbn [db with_storage emit];
      rewrite after_delete_db; [now left | right; eauto].
  - match goal with
    | |- context [setting_save pk ?r ?w1] =>
        assert (Hw1 : db w1 = with_groups gs (db w))
          by (destruct (negb (truthy v) && _is_file_setting _ c);
              [rewrite after_delete_db|]; reflexivity);
        destruct (setting_save_db pk r w1) as [Hdb | Hdb];
        rewrite Hdb, Hw1; [now left | right; eauto]
    end.
Qed.

Lemma setitem_keeps_keys (label : string) (v : PyVal) :
  keeps_keys (S := S) (AppSettingDict.__setitem__ label v).
Proof.
  intros w.
  destruct (unpack3_cases (str_split "."%char label))
    as [(a & b & c & Hs) | Hbad].
  - destruct (setitem_db label a b c v w Hs)
      as [-> | (pk & row & gs & Hget & [-> | (v' & ->)])]; auto.
    unfold keys. cbn [settings with_settings with_groups read_fault
                        write_fault].
    split; [|auto]. apply map_key_insert.
    apply settings_get_resolves in Hget as (_ & Hl & _). exact Hl.
  - rewrite (setitem_malformed label v w Hbad). auto.
Qed.

End Frame.

(** X5.  A write reaches one setting only: whatever [__setitem__] on a
    label does, and whether it succeeds or fails, the lookup of every other
    three-part label finds afterwards what it found before, and for a
    setting that is not a file setting [__getitem__] returns what it
    returned before. *)
Theorem setitem_leaves_other_settings
  {S : Type} `{Framework S} (label a b c label2 a2 b2 c2 : string)
  (v : PyVal) (w : World S) :
  str_split "."%char label = [a; b; c] ->
  str_split "."%char label2 = [a2; b2; c2] ->
  label2 <> label ->
  let w' := snd (AppSettingDict.__setitem__ label v w) in
  settings_get (str_join "." [a2; b2]) c2 (db w')
  = settings_get (str_join "." [a2; b2]) c2 (db w)
  /\ (_is_file_setting (str_join "." [a2; b2]) c2 = false ->
        fst (AppSettingDict.__getitem__ label2 w')
        = fst (AppSettingDict.__getitem__ label2 w)).
Proof.
  intros Hs Hs2 Hne w'.
  assert (Hlookup : settings_get (str_join "." [a2; b2]) c2 (db w')
                    = settings_get (str_join "." [a2; b2]) c2 (db w)).
  { subst w'.
    destruct (setitem_db label a b c v w Hs)
      as [-> | (pk & row & gs & Hget & [-> | (v' & ->)])];
      try reflexivity.
    apply settings_get_resolves in Hget as (_ & Hl & Hg & Hn & _).
    unfold settings_get, manager_get.
    cbn [read_fault settings with_settings with_groups].
    assert (Hother : setting_filter (str_join "." [a2; b2]) c2 row = false).
    { destruct (setting_filter _ c2 row) eqn:Hf; [|reflexivity].
      apply setting_filter_true in Hf as (Hg2 & Hn2). exfalso. apply Hne.
      rewrite (label_of_parts label a b c Hs),
        (label_of_parts label2 a2 b2 c2 Hs2). congruence. }
    rewrite (select_from_insert_other _ _ 0 pk row (set_value v' row) Hl
               Hother Hother).
    reflexivity. }
  split; [exact Hlookup|]. intros Hplain.
  rewrite (getitem_parts label2 a2 b2 c2 w' Hs2),
    (getitem_parts label2 a2 b2 c2 w Hs2), Hlookup, Hplain.
  destruct (settings_get _ c2 (db w)) as [[pk row]|e]; [reflexivity|].
  destruct (is_ProgrammingError e); [reflexivity|].
  now destruct (is_ObjectDoesNotExist e).
Qed.

Lemma setitem_leaves_other_settings_witness :
  fst (AppSettingDict.__getitem__ "site.branding.title"
         (snd (AppSettingDict.__setitem__ "site.branding.logo" upload
                 demo_world)))
  = Ok (VStr "Acme").
Proof.
  destruct (setitem_leaves_other_settings "site.branding.logo" "site"
              "branding" "logo" "site.branding.title" "site" "branding"
              "title" upload demo_world eq_refl eq_refl)
    as (_ & Hread); [discriminate|].
  rewrite Hread; reflexivity.
Defined.

(** ** Rows are never added or removed *)

Section Keys.

Context {S : Type} `{Framework S}.

Lemma keeps_keys_of_db {A} (m : M S A) :
  (forall w, db (snd (m w)) = db w) -> keeps_keys m.
Proof. intros Hm w. now rewrite Hm. Qed.

Lemma keeps_keys_bind {A B} (m : M S A) (k : A -> M S B) :
  keeps_keys m -> (forall a, keeps_keys (k a)) -> keeps_keys (bind m k).
Proof.
  intros Hm Hk w. unfold bind. destruct (Hm w) as (Hkeys & Hr & Hw).
  destruct (m w) as [[a|e] w1]; cbn [snd] in *; [|auto].
  destruct (Hk a w1) as (Hkeys' & Hr' & Hw').
  repeat split; congruence.
Qed.

Lemma getitem_db (label : string) (w : World S) :
  db (snd (AppSettingDict.__getitem__ label w)) = db w.
Proof.
  destruct (unpack3_cases (str_split "."%char label))
    as [(a & b & c & Hs) | Hbad].
  - rewrite (getitem_parts label a b c w Hs).
    destruct (settings_get _ c (db w)) as [[pk row]|e].
    + destruct (_is_file_setting _ c);
        [apply open_as_django_file_db | reflexivity].
    + destruct (is_ProgrammingError e); [reflexivity|].
      now destruct (is_ObjectDoesNotExist e).
  - now rewrite (getitem_malformed label w Hbad).
Qed.

Lemma save_model_keeps_keys (model : ModelClass)
  (items : list (string * PyVal)) :
  keeps_keys (S := S) (SettingGroupAdmin.save_model model items).
Proof.
  induction items as [|[field_name v] rest IH];
    cbn [SettingGroupAdmin.save_model].
  - now apply keeps_keys_of_db.
  - destruct (existsb _ _); [exact IH|].
    apply keeps_keys_bind; [now apply keeps_keys_of_db|]. intros field.
    destruct (isinstance_FileField (Some field)).
    + destruct (is_False v).
      * apply keeps_keys_bind; [apply setitem_keeps_keys | intros; exact IH].
      * destruct (negb (truthy v)); [exact IH|].
        apply keeps_keys_bind; [apply setitem_keeps_keys | intros; exact IH].
    + apply keeps_keys_bind; [apply setitem_keeps_keys | intros; exact IH].
Qed.

Lemma initial_data_world (model : ModelClass) (w : World S) :
  snd (SettingGroupAdmin.get_changeform_initial_data model w) = w.
Proof.
  unfold SettingGroupAdmin.get_changeform_initial_data.
  now destruct (read_fault (db w)).
Qed.

Lemma changeform_body_keeps_keys (model : ModelClass) (request : Request) :
  keeps_keys (S := S) (SettingGroupAdmin._changeform_view model request).
Proof.
  unfold SettingGroupAdmin._changeform_view.
  apply keeps_keys_bind; [now apply keeps_keys_of_db|]. intros _.
  assert (Hinit : keeps_keys (S := S)
                    (SettingGroupAdmin.get_changeform_initial_data model)).
  { apply keeps_keys_of_db. intros w. now rewrite initial_data_world. }
  destruct (method request).
  - destruct (negb (has_view_or_change_permission request));
      [now apply keeps_keys_of_db|].
    apply keeps_keys_bind; [exact Hinit|]. intros _.
    now apply keeps_keys_of_db.
  - destruct (negb (has_change_permission request));
      [now apply keeps_keys_of_db|].
    apply keeps_keys_bind; [exact Hinit|]. intros _.
    destruct (cleaned_data request) as [cleaned|];
      [|now apply keeps_keys_of_db].
    destruct (formsets_valid request); [|now apply keeps_keys_of_db].
    apply keeps_keys_bind; [apply save_model_keeps_keys|]. intros _.
    apply keeps_keys_bind; [now apply keeps_keys_of_db|]. intros _.
    now apply keeps_keys_of_db.
Qed.

End Keys.

(** X6.  Neither the accessor nor the admin page ever adds or removes a
    settings row or gives a row another group or name: after any call of
    [__getitem__], [get], [__contains__], [__setitem__], [save_model] or
    the change-form view, successful or not, the table has the keys it had,
    in the same order. *)
Theorem rows_are_never_added_or_removed
  {S : Type} `{Framework S} (label : string) (v default : PyVal)
  (model : ModelClass) (items : list (string * PyVal)) (request : Request) :
  keeps_keys (S := S) (AppSettingDict.__getitem__ label)
  /\ keeps_keys (S := S) (AppSettingDict.get label default)
  /\ keeps_keys (S := S) (AppSettingDict.__contains__ label)
  /\ keeps_keys (S := S) (AppSettingDict.__setitem__ label v)
  /\ keeps_keys (S := S) (SettingGroupAdmin.save_model model items)
  /\ keeps_keys (S := S) (SettingGroupAdmin.changeform_view model request).
Proof.
  split; [|split; [|split; [|split; [|split]]]].
  - apply keeps_keys_of_db. apply getitem_db.
  - apply keeps_keys_of_db. intros w. rewrite get_of_getitem.
    apply getitem_db.
  - apply keeps_keys_of_db. intros w. rewrite contains_of_getitem.
    apply getitem_db.
  - apply setitem_keeps_keys.
  - apply save_model_keeps_keys.
  - intros w. unfold SettingGroupAdmin.changeform_view,
      SettingGroupAdmin.transaction_atomic.
    pose proof (changeform_body_keeps_keys model request (emit EvBegin w))
      as Hbody.
    destruct (SettingGroupAdmin._changeform_view model request
                (emit EvBegin w)) as [[r|e] w1]; cbn [snd] in *.
    + exact Hbody.
    + auto.
Qed.

(** ** Writes that are not uploads *)

Section PlainWrites.

Context {S : Type} `{Framework S}.

Lemma setting_save_storage (pk : nat) (r : ApplicationSetting) (w : World S) :
  storage (snd (setting_save pk r w)) = storage w.
Proof. unfold setting_save. now destruct (row_save pk r _). Qed.

Lemma setting_save_trace (pk : nat) (r : ApplicationSetting) (w : World S) :
  trace (snd (setting_save pk r w))
  = (trace w ++ [EvRowSave pk (row_value r)])%list.
Proof. unfold setting_save. now destruct (row_save pk r _). Qed.

(** A value that is falsy and not a new upload names no file. *)
Lemma extract_storage_value_falsy (v : PyVal) :
  is_new_upload v = false -> truthy v = false ->
  truthy (_extract_storage_value v) = false.
Proof.
  destruct v as [| | | |n body|n body]; intros Hnew Hv;
    try assumption; try discriminate.
  cbn [truthy] in Hv.
  unfold _extract_storage_value, py_or. cbn [isinstance_File attr_name].
  now rewrite Hv.
Qed.

End PlainWrites.

(** X7.  Only an upload or the clearing of a file setting reaches the
    storage.  A write of a value that is not a new upload, and is truthy or
    goes to a setting that is not a file setting, leaves the storage as it
    is and records no storage call, whether the write succeeds or not; the
    old file of a file setting overwritten this way stays in storage. *)
Theorem plain_write_leaves_storage
  {S : Type} `{Framework S} (label a b c : string) (v : PyVal) (w : World S) :
  str_split "."%char label = [a; b; c] ->
  is_new_upload v = false ->
  truthy v = true \/ _is_file_setting (str_join "." [a; b]) c = false ->
  let w' := snd (AppSettingDict.__setitem__ label v w) in
  storage w' = storage w
  /\ exists evs,
       trace w' = (trace w ++ evs)%list
       /\ Forall (fun e => match e with
                           | EvTouch _ | EvRowSave _ _ => True
                           | _ => False
                           end) evs.
Proof.
  intros Hs Hnew Hplain w'. subst w'.
  rewrite (setitem_parts label a b c v w Hs).
  destruct (settings_get _ c (db w)) as [[pk row]|e];
    [|split; [reflexivity | exists []; now rewrite app_nil_r]].
  cbv beta iota zeta.
  destruct (touch_last_modified _ (groups (db w))) as [gs|e];
    [|split; [reflexivity | exists [EvTouch (group__group_name row)]; auto]].
  rewrite Hnew.
  assert (Hcond : negb (truthy v) && _is_file_setting (str_join "." [a; b]) c
                  = false).
  { destruct Hplain as [-> | ->]; [reflexivity | apply andb_false_r]. }
  rewrite Hcond, setting_save_storage, setting_save_trace.
  split; [reflexivity|].
  exists [EvTouch (group__group_name row); EvRowSave pk v].
  cbn [trace with_db emit row_value set_value]. rewrite <- app_assoc.
  split; [reflexivity | auto].
Qed.

Lemma plain_write_leaves_storage_witness :
  let w' := snd (AppSettingDict.__setitem__ "site.branding.logo"
                   (VStr "elsewhere.png") demo_world) in
  storage w' = storage demo_world
  /\ settings_get "site.branding" "logo" (db w')
     = Ok (1, set_value (VStr "elsewhere.png") demo_logo).
Proof.
  intros w'.
  destruct (plain_write_leaves_storage "site.branding.logo" "site" "branding"
              "logo" (VStr "elsewhere.png") demo_world eq_refl eq_refl
              (or_introl eq_refl)) as (Hstorage & _).
  split; [exact Hstorage | reflexivity].
Defined.

(** ** Uploads that fail *)



(** ** Writing a file setting, then reading it *)

(** X9.  What an upload stored is what the next read opens: after a
    successful upload to a file setting, [__getitem__] on the same label
    opens the name the storage's save returned and returns that file under
    that name, or [None] if the storage cannot open it. *)
Theorem upload_then_read
  {S : Type} `{Framework S} (label a b c : string) (pk : nat)
  (row : ApplicationSetting) (gs : list SettingGroup) (v : PyVal)
  (path saved : string) (s' : S) (w : World S) :
  str_split "."%char label = [a; b; c] ->
  settings_get (str_join "." [a; b]) c (db w) = Ok (pk, row) ->
  touch_last_modified (group__group_name row) (groups (db w)) = Ok gs ->
  write_fault (db w) = None ->
  _is_file_setting (str_join "." [a; b]) c = true ->
  is_new_upload v = true ->
  _storage_path_for a b c (attr_name v) = Ok path ->
  let old := _extract_storage_value (row_value row) in
  storage_save path v
    (if truthy old then snd (storage_delete old (storage w)) else storage w)
  = (Ok saved, s') ->
  saved <> "" ->
  exists w',
    AppSettingDict.__setitem__ label v w = (Ok tt, w')
    /\ AppSettingDict.__getitem__ label w'
       = (match fst (storage_open (VStr saved) s') with
          | Ok f => Ok (VFile (VStr saved) f)
          | Raise _ => Ok VNone
          end,
          with_storage (snd (storage_open (VStr saved) s'))
            (emit (EvOpen (VStr saved)) w')).
Proof.
  intros Hs Hrow Htouch Hwrite Hfile Hnew Hpath old Hsave Hsaved.
  destruct (setitem_upload_run label a b c pk row gs w Hs Hrow Htouch Hwrite
              v path saved s' Hnew Hpath Hsave)
    as (w' & Hrun & _ & Hstorage & _ & Hget).
  exists w'. split; [exact Hrun|].
  rewrite (getitem_parts label a b c w' Hs), Hget, Hfile.
  cbn [snd row_value set_value _extract_storage_value isinstance_File].
  assert (Htruthy : truthy (VStr saved) = true).
  { simpl. apply negb_true_iff. now apply String.eqb_neq. }
  rewrite open_as_django_file_truthy by exact Htruthy.
  now rewrite Hstorage.
Qed.

Lemma upload_then_read_witness :
  let new_name := "app_settings/site/branding/logo/new.png" in
  exists w',
    AppSettingDict.__setitem__ "site.branding.logo" upload demo_world
    = (Ok tt, w')
    /\ fst (AppSettingDict.__getitem__ "site.branding.logo" w')
       = Ok (VFile (VStr new_name) "NEW").
Proof.
  intros new_name.
  destruct (upload_then_read (H := mem_framework) "site.branding.logo" "site"
              "branding" "logo" 1 demo_logo
              [ {| group_name := "site.branding"; last_modified := 1 |} ]
              upload new_name new_name (mem_store [(new_name, "NEW")])
              demo_world eq_refl eq_refl eq_refl eq_refl eq_refl eq_refl
              eq_refl eq_refl) as (w' & Hrun & Hread); [discriminate|].
  exists w'. split; [exact Hrun|]. now rewrite Hread.
Defined.

(** X10.  A cleared file setting reads as [None]: after a successful write
    of a falsy value that is not an upload to a file setting,
    [__getitem__] on the same label returns [None] and opens nothing. *)
Theorem clear_then_read
  {S : Type} `{Framework S} (label a b c : string) (pk : nat)
  (row : ApplicationSetting) (gs : list SettingGroup) (v : PyVal)
  (w : World S) :
  str_split "."%char label = [a; b; c] ->
  settings_get (str_join "." [a; b]) c (db w) = Ok (pk, row) ->
  touch_last_modified (group__group_name row) (groups (db w)) = Ok gs ->
  write_fault (db w) = None ->
  _is_file_setting (str_join "." [a; b]) c = true ->
  is_new_upload v = false ->
  truthy v = false ->
  exists w',
    AppSettingDict.__setitem__ label v w = (Ok tt, w')
    /\ AppSettingDict.__getitem__ label w' = (Ok VNone, w').
Proof.
  intros Hs Hrow Htouch Hwrite Hfile Hnew Hfalsy.
  destruct (setitem_clear_run label a b c pk row gs w Hs Hrow Htouch Hwrite
              v Hnew Hfalsy Hfile)
    as (w' & Hrun & _ & _ & _ & Hget).
  exists w'. split; [exact Hrun|].
  rewrite (getitem_parts label a b c w' Hs), Hget, Hfile.
  cbn [snd row_value set_value].
  apply open_as_django_file_falsy.
  now apply extract_storage_value_falsy.
Qed.

Lemma clear_then_read_witness :
  exists w',
    AppSettingDict.__setitem__ "site.branding.logo" VNone demo_world
    = (Ok tt, w')
    /\ AppSettingDict.__getitem__ "site.branding.logo" w' = (Ok VNone, w').
Proof.
  apply (clear_then_read (H := mem_framework) "site.branding.logo" "site"
           "branding" "logo" 1 demo_logo
           [ {| group_name := "site.branding"; last_modified := 1 |} ]
           VNone demo_world);
    reflexivity.
Defined.

(** ** [save_model] over a whole form *)

Section SaveModelWhole.

Context {S : Type} `{Framework S}.

Variable model : ModelClass.

Lemma bind_ext {A B} (m : M S A) (k k' : A -> M S B) (w : World S) :
  (forall a w1, k a w1 = k' a w1) -> bind m k w = bind m k' w.
Proof.
  intros Hk. unfold bind. destruct (m w) as [[a|e] w1]; [apply Hk|reflexivity].
Qed.

(** One item of the form: passed over, refused by [get_field], or
    written, a file field's [False] as [None]. *)
Lemma save_model_cons (field_name : string) (v : PyVal)
  (rest : list (string * PyVal)) (w : World S) :
  SettingGroupAdmin.save_model model ((field_name, v) :: rest) w
  = if skips model (field_name, v) then
      SettingGroupAdmin.save_model model rest w
    else
      match get_field model field_name with
      | Raise e => (Raise e, w)
      | Ok field =>
          (AppSettingDict.__setitem__
             (str_join "." [name_from_class model; field_name])
             (if isinstance_FileField (Some field) && is_False v
              then VNone else v);;;
           SettingGroupAdmin.save_model model rest) w
      end.
Proof.
  unfold skips. cbn [fst snd SettingGroupAdmin.save_model].
  destruct (existsb (String.eqb field_name) (_internal_fields model));
    [reflexivity|].
  cbn [orb]. unfold bind at 1, lift.
  destruct (get_field model field_name) as [field|e]; [|reflexivity].
  destruct (isinstance_FileField (Some field)); [|reflexivity].
  destruct (is_False v); [reflexivity|].
  now destruct (truthy v).
Qed.

Lemma passed_over_skips (item : string * PyVal) :
  passed_over model item = true -> skips model item = true.
Proof.
  unfold passed_over, skips.
  destruct (existsb _ _); [reflexivity|]. cbn [orb].
  destruct (get_field model (fst item)); [|discriminate].
  intros Hover. now apply andb_true_iff in Hover as (-> & _).
Qed.

Lemma save_model_filter (items : list (string * PyVal)) (w : World S) :
  SettingGroupAdmin.save_model model items w
  = SettingGroupAdmin.save_model model
      (List.filter (fun item => negb (passed_over model item)) items) w.
Proof.
  revert w. induction items as [|[field_name v] rest IH]; intros w;
    [reflexivity|].
  cbn [List.filter]. rewrite save_model_cons.
  destruct (passed_over model (field_name, v)) eqn:Hover; cbn [negb].
  - rewrite (passed_over_skips _ Hover). apply IH.
  - rewrite save_model_cons.
    destruct (skips model (field_name, v)); [apply IH|].
    destruct (get_field model field_name) as [field|e]; [|reflexivity].
    apply bind_ext. intros _ w1. apply IH.
Qed.

Lemma save_model_app (before after : list (string * PyVal)) (w : World S) :
  SettingGroupAdmin.save_model model (before ++ after) w
  = (SettingGroupAdmin.save_model model before;;;
     SettingGroupAdmin.save_model model after) w.
Proof.
  revert w. induction before as [|[field_name v] rest IH]; intros w;
    [reflexivity|].
  cbn [app]. unfold bind. rewrite !save_model_cons.
  destruct (skips model (field_name, v)).
  - rewrite IH. reflexivity.
  - destruct (get_field model field_name) as [field|e]; [|reflexivity].
    unfold bind.
    destruct (AppSettingDict.__setitem__ _ _ w) as [[[]|e] w1];
      [|reflexivity].
    rewrite IH. reflexivity.
Qed.

End SaveModelWhole.

(** X11.  [save_model] never writes an internal field, nor a file field
    whose cleaned value is falsy without being [False] or an uploaded
    [File] ([None], the empty string, zero, a [FieldFile] without a name):
    saving a form is saving the form without those items, and a form of
    such items only leaves the world as it is. *)
Theorem save_model_passes_over
  {S : Type} `{Framework S} (model : ModelClass)
  (items : list (string * PyVal)) (w : World S) :
  SettingGroupAdmin.save_model model items w
  = SettingGroupAdmin.save_model model
      (List.filter (fun item => negb (passed_over model item)) items) w
  /\ (forallb (passed_over model) items = true ->
        SettingGroupAdmin.save_model model items w = (Ok tt, w)).
Proof.
  split; [apply save_model_filter|].
  intros Hall. rewrite save_model_filter.
  assert (Hnone : List.filter (fun item => negb (passed_over model item)) items
                  = []).
  { induction items as [|item rest IH]; [reflexivity|].
    cbn [forallb] in Hall. apply andb_true_iff in Hall as (Hitem & Hrest).
    cbn [List.filter]. rewrite Hitem. cbn [negb]. now apply IH. }
  now rewrite Hnone.
Qed.

Lemma save_model_passes_over_witness :
  SettingGroupAdmin.save_model branding
    [("id", VInt 7); ("logo", VNone); ("last_modified", VInt 3); ("logo", VStr "")]
    demo_world
  = (Ok tt, demo_world).
Proof.
  apply (save_model_passes_over branding). reflexivity.
Defined.

(** X12.  [save_model] writes the cleaned data in order and stops at the
    first failure: saving [before ++ after] is saving [before] and then, if
    that did not raise, saving [after] in the world it left; so a field the
    model does not know ends the save with [get_field]'s exception after
    the fields before it were written. *)
Theorem save_model_in_order
  {S : Type} `{Framework S} (model : ModelClass)
  (before after : list (string * PyVal)) (w : World S) :
  SettingGroupAdmin.save_model model (before ++ after) w
  = match SettingGroupAdmin.save_model model before w with
    | (Ok _, w1) => SettingGroupAdmin.save_model model after w1
    | (Raise e, w1) => (Raise e, w1)
    end
  /\ (forall field_name v e rest,
        after = (field_name, v) :: rest ->
        existsb (String.eqb field_name) (_internal_fields model) = false ->
        get_field model field_name = Raise e ->
        SettingGroupAdmin.save_model model (before ++ after) w
        = match SettingGroupAdmin.save_model model before w with
          | (Ok _, w1) => (Raise e, w1)
          | (Raise e', w1) => (Raise e', w1)
          end).
Proof.
  assert (Hseq : SettingGroupAdmin.save_model model (before ++ after) w
    = match SettingGroupAdmin.save_model model before w with
      | (Ok _, w1) => SettingGroupAdmin.save_model model after w1
      | (Raise e, w1) => (Raise e, w1)
      end).
  { rewrite save_model_app. unfold bind.
    now destruct (SettingGroupAdmin.save_model model before w) as [[[]|e] w1]. }
  split; [exact Hseq|].
  intros field_name v e rest -> Hpublic Hfield. rewrite Hseq.
  destruct (SettingGroupAdmin.save_model model before w) as [[[]|e'] w1];
    [|reflexivity].
  cbn [SettingGroupAdmin.save_model]. rewrite Hpublic.
  unfold bind, lift. now rewrite Hfield.
Qed.

Lemma save_model_in_order_witness :
  let run := SettingGroupAdmin.save_model branding
               [("title", VStr "New"); ("colour", VStr "red");
                ("logo", VBool false)] demo_world in
  fst run = Raise FieldDoesNotExist
  /\ settings (db (snd run)) = [set_value (VStr "New") demo_title; demo_logo].
Proof.
  intros run. subst run.
  destruct (save_model_in_order branding [("title", VStr "New")]
              [("colour", VStr "red"); ("logo", VBool false)] demo_world)
    as (_ & Hstop).
  change [("title", VStr "New"); ("colour", VStr "red"); ("logo", VBool false)]
    with ([("title", VStr "New")]
            ++ [("colour", VStr "red"); ("logo", VBool false)])%list.
  rewrite (Hstop "colour" (VStr "red") FieldDoesNotExist
             [("logo", VBool false)] eq_refl eq_refl eq_refl).
  split; reflexivity.
Defined.

(** ** The admin writes what the accessor reads *)

Section WriteThenRead.

Context {S : Type} `{Framework S}.

(** A completed write of a plain value is read back under the same label. *)
Lemma setitem_then_getitem (label a b c : string) (v : PyVal)
  (w w' : World S) :
  str_split "."%char label = [a; b; c] ->
  is_new_upload v = false ->
  _is_file_setting (str_join "." [a; b]) c = false ->
  AppSettingDict.__setitem__ label v w = (Ok tt, w') ->
  AppSettingDict.__getitem__ label w' = (Ok v, w').
Proof.
  intros Hs Hnew Hplain Hrun.
  destruct (setitem_Ok_inv label a b c v w w' Hs Hrun)
    as (pk & row & v' & Hget & Hrows & Hfault & Hv').
  rewrite (Hv' Hnew) in Hrows.
  pose proof (settings_get_after_save _ c pk row v (db w) (groups (db w)) Hget)
    as Hafter.
  apply settings_get_resolves in Hget as (Hf & _).
  assert (Hget' : settings_get (str_join "." [a; b]) c (db w')
                  = Ok (pk, set_value v row)).
  { apply settings_get_resolves in Hafter as (_ & Hres').
    apply settings_get_resolves. split; [congruence|].
    unfold resolves in *. cbn [settings with_settings] in Hres'.
    now rewrite Hrows. }
  rewrite (getitem_parts label a b c w' Hs), Hget', Hplain. reflexivity.
Qed.

End WriteThenRead.

(** X13.  What the admin page saved last is what the accessor reads: when
    [save_model] completes on a form whose last item is a field that is not
    a file field, with a value that is not an uploaded file, [__getitem__]
    on that field's label returns that value. *)
Theorem save_model_then_getitem
  {S : Type} `{Framework S} (model : ModelClass)
  (before : list (string * PyVal)) (field_name : string) (field : Field)
  (v : PyVal) (a b c : string) (w w' : World S) :
  let label := str_join "." [name_from_class model; field_name] in
  existsb (String.eqb field_name) (_internal_fields model) = false ->
  get_field model field_name = Ok field ->
  isinstance_FileField (Some field) = false ->
  str_split "."%char label = [a; b; c] ->
  _is_file_setting (str_join "." [a; b]) c = false ->
  is_new_upload v = false ->
  SettingGroupAdmin.save_model model (before ++ [(field_name, v)]) w
  = (Ok tt, w') ->
  AppSettingDict.__getitem__ label w' = (Ok v, w').
Proof.
  intros label Hpublic Hfield Hfile Hs Hplain Hnew Hrun.
  rewrite save_model_app in Hrun. unfold bind at 1 in Hrun.
  destruct (SettingGroupAdmin.save_model model before w) as [[[]|e] w1];
    [|discriminate].
  rewrite save_model_cons in Hrun. unfold skips in Hrun.
  cbn [fst snd] in Hrun. rewrite Hpublic, Hfield, Hfile in Hrun.
  cbn [orb andb] in Hrun. fold label in Hrun.
  unfold bind in Hrun. cbn [SettingGroupAdmin.save_model] in Hrun.
  destruct (AppSettingDict.__setitem__ label v w1) as [[[]|e] w2] eqn:Hset;
    [|discriminate].
  unfold ret in Hrun. injection Hrun as <-.
  now apply (setitem_then_getitem label a b c v w1 w2).
Qed.

Lemma save_model_then_getitem_witness :
  exists w',
    SettingGroupAdmin.save_model branding
      [("logo", VNone); ("title", VStr "Zenith")] demo_world = (Ok tt, w')
    /\ AppSettingDict.__getitem__ "site.branding.title" w'
       = (Ok (VStr "Zenith"), w').
Proof.
  destruct (SettingGroupAdmin.save_model branding
              [("logo", VNone); ("title", VStr "Zenith")] demo_world)
    as [r w'] eqn:Hrun.
  assert (Hr : r = Ok tt) by (vm_compute in Hrun; congruence).
  subst r. exists w'. split; [reflexivity|].
  apply (save_model_then_getitem (H := mem_framework) branding
           [("logo", VNone)] "title" CharField (VStr "Zenith")
           "site" "branding" "title" demo_world w');
    try reflexivity. exact Hrun.
Defined.

(** ** The form's initial data *)

Lemma dict_get_dict_set (k k' : string) (v : PyVal)
  (d : list (string * PyVal)) :
  dict_get k (dict_set k' v d)
  = if String.eqb k' k then Some v else dict_get k d.
Proof.
  induction d as [|[k0 v0] rest IH]; simpl.
  - reflexivity.
  - destruct (String.eqb k0 k') eqn:H0; simpl.
    + apply String.eqb_eq in H0. subst k0.
      now destruct (String.eqb k' k).
    + destruct (String.eqb k0 k) eqn:H1.
      * apply String.eqb_eq in H1. subst k0.
        rewrite String.eqb_sym in H0. now rewrite H0.
      * exact IH.
Qed.

(** In a [dict] built from pairs the last pair of a key wins. *)
Lemma dict_get_fold (k : string) (pairs acc : list (string * PyVal)) :
  dict_get k
    (List.fold_left (fun d kv => dict_set (fst kv) (snd kv) d) pairs acc)
  = match dict_get k (List.rev pairs) with
    | Some v => Some v
    | None => dict_get k acc
    end.
Proof.
  revert acc. induction pairs as [|[k1 v1] rest IH]; intros acc;
    [reflexivity|].
  cbn [List.fold_left List.rev fst snd]. rewrite IH, dict_get_dict_set.
  assert (Happ : forall l,
             dict_get k (l ++ [(k1, v1)])
             = match dict_get k l with
               | Some v => Some v
               | None => if String.eqb k1 k then Some v1 else None
               end).
  { induction l as [|[k0 v0] l IHl]; simpl; [reflexivity|].
    now destruct (String.eqb k0 k). }
  rewrite Happ. destruct (dict_get k (List.rev rest)); [reflexivity|].
  now destruct (String.eqb k1 k).
Qed.

Lemma dict_get_In (k : string) (v : PyVal) (l : list (string * PyVal)) :
  dict_get k l = Some v -> In (k, v) l.
Proof.
  induction l as [|[k0 v0] rest IH]; simpl; [discriminate|].
  destruct (String.eqb k0 k) eqn:H0.
  - apply String.eqb_eq in H0. subst k0. intros [= ->]. now left.
  - intros Hr. right. now apply IH.
Qed.

Lemma dict_get_only (k : string) (x : PyVal) (l : list (string * PyVal)) :
  (exists v, In (k, v) l) ->
  (forall v, In (k, v) l -> v = x) ->
  dict_get k l = Some x.
Proof.
  induction l as [|[k0 v0] rest IH]; intros (v & Hin) Hall; [destruct Hin|].
  simpl. destruct (String.eqb k0 k) eqn:H0.
  - apply String.eqb_eq in H0. subst k0. f_equal. apply Hall. now left.
  - apply IH.
    + destruct Hin as [[= -> _] | Hin]; [|eauto].
      rewrite String.eqb_refl in H0. discriminate.
    + intros v' Hv'. apply Hall. now right.
Qed.

(** X14.  The initial data of the change form is the group's part of the
    table, by name: a name is a key of it exactly when a row of the model's
    group has that name, its value is then such a row's value, and for a
    setting the accessor's lookup resolves it is that row's value.  The
    call changes nothing, and a failing connection's exception passes
    through. *)
Theorem initial_data_is_the_groups_rows
  {S : Type} `{Framework S} (model : ModelClass) (w : World S) :
  (forall e, read_fault (db w) = Some e ->
     SettingGroupAdmin.get_changeform_initial_data model w = (Raise e, w))
  /\ (read_fault (db w) = None ->
      exists d,
        SettingGroupAdmin.get_changeform_initial_data model w = (Ok d, w)
        /\ (forall n pk row,
              settings_get (name_from_class model) n (db w) = Ok (pk, row) ->
              dict_get n d = Some (row_value row))
        /\ (forall n v,
              dict_get n d = Some v ->
              exists pk row,
                settings (db w) !! pk = Some row
                /\ row_key row = (name_from_class model, n)
                /\ row_value row = v)
        /\ (forall n pk row,
              settings (db w) !! pk = Some row ->
              row_key row = (name_from_class model, n) ->
              exists v, dict_get n d = Some v)).
Proof.
  unfold SettingGroupAdmin.get_changeform_initial_data. split.
  - intros e ->. reflexivity.
  - intros ->. eexists. split; [reflexivity|].
    set (g := name_from_class model).
    set (pairs := List.map (fun r => (row_name r, row_value r))
                   (List.filter (fun r => String.eqb (group__group_name r) g)
                      (settings (db w)))).
    assert (Hpairs : forall n v,
               In (n, v) (List.rev pairs) <->
               exists pk row,
                 settings (db w) !! pk = Some row
                 /\ row_key row = (g, n) /\ row_value row = v).
    { intros n v. rewrite <- in_rev. unfold pairs.
      rewrite in_map_iff. split.
      - intros (row & [= Hn Hv] & Hin).
        apply filter_In in Hin as (Hin & Hg). apply String.eqb_eq in Hg.
        apply list_elem_of_In, list_elem_of_lookup in Hin as (pk & Hl).
        exists pk, row. unfold row_key. repeat split; congruence.
      - intros (pk & row & Hl & [= Hg Hn] & Hv). exists row.
        split; [congruence|]. apply filter_In. split.
        + apply list_elem_of_In, list_elem_of_lookup. eauto.
        + now apply String.eqb_eq. }
    assert (Hget : forall n, dict_get n (dict pairs)
                             = dict_get n (List.rev pairs)).
    { intros n. unfold dict. rewrite dict_get_fold.
      now destruct (dict_get n (List.rev pairs)). }
    split; [|split].
    + intros n pk row Hrow. rewrite Hget.
      apply settings_get_resolves in Hrow as (_ & Hl & Hg & Hn & Huniq).
      apply dict_get_only.
      * exists (row_value row). apply Hpairs. exists pk, row.
        unfold row_key. repeat split; congruence.
      * intros v Hin. apply Hpairs in Hin as (pk' & row' & Hl' & [= Hg' Hn'] & <-).
        rewrite (Huniq pk' row' Hl' Hg' Hn') in Hl'. congruence.
    + intros n v Hd. rewrite Hget in Hd. apply dict_get_In in Hd.
      now apply Hpairs.
    + intros n pk row Hl Hk. rewrite Hget.
      destruct (dict_get n (List.rev pairs)) as [v|] eqn:Hd; [eauto|].
      exfalso.
      assert (Hin : In (n, row_value row) (List.rev pairs))
        by (apply Hpairs; eauto).
      clear - Hin Hd. induction (List.rev pairs) as [|[k0 v0] l IH];
        [destruct Hin|].
      simpl in Hd. destruct (String.eqb k0 n) eqn:H0; [discriminate|].
      destruct Hin as [[= -> _] | Hin]; [|auto].
      rewrite String.eqb_refl in H0. discriminate.
Qed.

Lemma initial_data_is_the_groups_rows_witness :
  exists d,
    SettingGroupAdmin.get_changeform_initial_data branding demo_world
    = (Ok d, demo_world)
    /\ dict_get "title" d = Some (VStr "Acme")
    /\ dict_get "logo" d = Some (row_value demo_logo).
Proof.
  destruct (initial_data_is_the_groups_rows branding demo_world)
    as (_ & Hsound).
  destruct (Hsound eq_refl) as (d & Hrun & Hrows & _).
  exists d. split; [exact Hrun|]. split.
  - apply (Hrows "title" 0 demo_title). reflexivity.
  - apply (Hrows "logo" 1 demo_logo). reflexivity.
Defined.

(** ** Requests that write nothing *)

Section ReadOnlyRequests.

Context {S : Type} `{Framework S}.

Lemma changeform_body_without_save (model : ModelClass) (request : Request)
  (w : World S) :
  method request = GET \/ has_change_permission request = false
  \/ cleaned_data request = None \/ formsets_valid request = false ->
  snd (SettingGroupAdmin._changeform_view model request w) = w
  /\ fst (SettingGroupAdmin._changeform_view model request w)
     <> Ok response_change.
Proof.
  intros Hcase.
  destruct (SettingGroupAdmin._changeform_view model request w) as [r w1]
    eqn:Hrun.
  cbn [fst snd]. revert Hrun.
  assert (Hleaf : forall (r0 : result Response),
             r0 <> Ok response_change ->
             (r0, w) = (r, w1) -> w1 = w /\ r <> Ok response_change).
  { intros r0 Hr0 [= <- <-]. auto. }
  unfold SettingGroupAdmin._changeform_view.
  unfold bind at 1. unfold setting_group_get. cbv beta.
  destruct (groups_get (name_from_class model) (db w)) as [grp|e];
    [|now apply Hleaf].
  pose proof (initial_data_world model w) as Hinit.
  destruct (method request) eqn:Hm.
  - destruct (negb (has_view_or_change_permission request));
      [now apply Hleaf|].
    unfold bind.
    destruct (SettingGroupAdmin.get_changeform_initial_data model w)
      as [[d|e] w2]; cbn [snd] in Hinit; subst w2; now apply Hleaf.
  - destruct (has_change_permission request) eqn:Hperm; cbn [negb];
      [|now apply Hleaf].
    unfold bind at 1.
    destruct (SettingGroupAdmin.get_changeform_initial_data model w)
      as [[d|e] w2]; cbn [snd] in Hinit; subst w2; [|now apply Hleaf].
    destruct (cleaned_data request) as [cleaned|] eqn:Hclean;
      [|now apply Hleaf].
    destruct (formsets_valid request) eqn:Hsets; [|now apply Hleaf].
    destruct Hcase as [Hc | [Hc | [Hc | Hc]]]; congruence.
Qed.

End ReadOnlyRequests.

(** X15.  Only a permitted, valid POST writes.  A GET, a POST without the
    change permission, a POST whose form is invalid and a POST whose
    formsets are invalid leave the database and the storage as they are,
    open and close the transaction around nothing, and never answer with
    the redirect of a saved change; without the permission the answer is
    [PermissionDenied] whenever the setting group exists. *)
Theorem only_a_valid_post_writes
  {S : Type} `{Framework S} (model : ModelClass) (request : Request)
  (w : World S) :
  method request = GET \/ has_change_permission request = false
  \/ cleaned_data request = None \/ formsets_valid request = false ->
  let run := SettingGroupAdmin.changeform_view model request w in
  db (snd run) = db w
  /\ storage (snd run) = storage w
  /\ (trace (snd run) = (trace w ++ [EvBegin; EvCommit])%list
      \/ trace (snd run) = (trace w ++ [EvBegin; EvRollback])%list)
  /\ fst run <> Ok response_change
  /\ (forall grp,
        groups_get (name_from_class model) (db w) = Ok grp ->
        (method request = POST -> has_change_permission request = false ->
         fst run = Raise PermissionDenied)
        /\ (method request = GET ->
            has_view_or_change_permission request = false ->
            fst run = Raise PermissionDenied)).
Proof.
  intros Hcase run. subst run.
  unfold SettingGroupAdmin.changeform_view,
    SettingGroupAdmin.transaction_atomic.
  destruct (changeform_body_without_save model request (emit EvBegin w) Hcase)
    as (Hworld & Hanswer).
  split; [|split; [|split; [|split]]].
  - destruct (SettingGroupAdmin._changeform_view model request (emit EvBegin w))
      as [[r|e] w1]; cbn [snd] in *; subst w1; reflexivity.
  - destruct (SettingGroupAdmin._changeform_view model request (emit EvBegin w))
      as [[r|e] w1]; cbn [snd] in *; subst w1; reflexivity.
  - destruct (SettingGroupAdmin._changeform_view model request (emit EvBegin w))
      as [[r|e] w1]; cbn [snd] in *; subst w1; cbn [trace emit with_db];
      rewrite <- app_assoc; [now left | now right].
  - destruct (SettingGroupAdmin._changeform_view model request (emit EvBegin w))
      as [[r|e] w1]; cbn [fst] in *; [exact Hanswer | discriminate].
  - intros grp Hgrp. clear Hworld Hanswer.
    unfold SettingGroupAdmin._changeform_view, bind, setting_group_get.
    cbn [db emit]. rewrite Hgrp. split.
    + intros -> ->. reflexivity.
    + intros -> ->. reflexivity.
Qed.

Lemma only_a_valid_post_writes_witness :
  let denied :=
    {| method := POST; has_change_permission := false;
       has_view_or_change_permission := true;
       cleaned_data := Some [("title", VStr "New"); ("logo", upload)];
       formsets_valid := true; after_save := Ok tt |} in
  let run := SettingGroupAdmin.changeform_view branding denied demo_world in
  fst run = Raise PermissionDenied
  /\ db (snd run) = db demo_world
  /\ storage (snd run) = storage demo_world.
Proof.
  intros denied run.
  destruct (only_a_valid_post_writes branding denied demo_world
              (or_intror (or_introl eq_refl)))
    as (Hdb & Hstorage & _ & _ & Hdenied).
  split; [|split; [exact Hdb | exact Hstorage]].
  destruct (Hdenied (0, {| group_name := "site.branding"; last_modified := 0 |})
              eq_refl) as (Hpost & _).
  apply Hpost; reflexivity.
Defined.

(** ** The post-migrate handler *)

Section SetupFacts.

Context {S : Type} `{Framework S}.

Variable create_group : string -> DB -> result SettingGroup * DB.
Variable create_for_group : SettingGroup -> DB -> result unit * DB.

Lemma manager_call_world {A} (f : DB -> result A * DB) (w : World S) :
  exists d, snd (signals.manager_call f w) = with_db d w.
Proof. unfold signals.manager_call. destruct (f (db w)) as [r d]. eauto. Qed.

(** The loop works on the database and on nothing else. *)
Lemma setup_loop_world (labels : list string) (w : World S) :
  exists d,
    snd (signals.setup_loop create_group create_for_group labels w)
    = with_db d w.
Proof.
  revert w. induction labels as [|label rest IH]; intros w.
  - exists (db w). now destruct w.
  - cbn [signals.setup_loop]. unfold bind at 1, lift.
    destruct (get_model label) as [model|e];
      [|exists (db w); now destruct w].
    unfold bind at 1.
    destruct (manager_call_world (create_group (name_from_class model)) w)
      as (d1 & H1).
    destruct (signals.manager_call (create_group (name_from_class model)) w)
      as [[grp|e] w1]; cbn [snd] in H1; subst w1; [|eauto].
    unfold bind at 1.
    destruct (manager_call_world (create_for_group grp) (with_db d1 w))
      as (d2 & H2).
    destruct (signals.manager_call (create_for_group grp) (with_db d1 w))
      as [[[]|e] w2]; cbn [snd] in H2; subst w2; [|eauto].
    destruct (IH (with_db d2 (with_db d1 w))) as (d & Hd).
    exists d. exact Hd.
Qed.

Lemma setup_loop_unknown_label (labels : list string) (label : string)
  (e : exn) (w : World S) :
  In label labels -> get_model label = Raise e ->
  exists e',
    fst (signals.setup_loop create_group create_for_group labels w) = Raise e'.
Proof.
  intros Hin Hbad. revert w.
  induction labels as [|head rest IH]; intros w; [destruct Hin|].
  cbn [signals.setup_loop]. unfold bind at 1, lift.
  destruct (get_model head) as [model|e0] eqn:Hhead; [|eauto].
  unfold bind at 1.
  destruct (signals.manager_call (create_group (name_from_class model)) w)
    as [[grp|e1] w1]; [|eauto].
  unfold bind at 1.
  destruct (signals.manager_call (create_for_group grp) w1)
    as [[[]|e2] w2]; [|eauto].
  destruct Hin as [-> | Hin]; [congruence|]. now apply IH.
Qed.

End SetupFacts.

(** X16.  The post-migrate handler is all or nothing.  Whatever
    [create_group] and [create_for_group] do, when the handler raises the
    database is what it was before, also the groups and rows created for
    the labels before the failing one; it raises whenever a label of
    [MODEL_LABELS] does not resolve to a model; and it never touches the
    file storage. *)
Theorem setup_app_settings_all_or_nothing
  {S : Type} `{Framework S} (MODEL_LABELS : list string)
  (create_group : string -> DB -> result SettingGroup * DB)
  (create_for_group : SettingGroup -> DB -> result unit * DB)
  (w : World S) :
  let run :=
    signals.setup_app_settings MODEL_LABELS create_group create_for_group w in
  storage (snd run) = storage w
  /\ (forall e, fst run = Raise e ->
        db (snd run) = db w
        /\ trace (snd run) = (trace w ++ [EvBegin; EvRollback])%list)
  /\ (forall label e,
        In label MODEL_LABELS -> get_model label = Raise e ->
        exists e', fst run = Raise e' /\ db (snd run) = db w)
  /\ (MODEL_LABELS = [] -> fst run = Ok tt /\ db (snd run) = db w).
Proof.
  intros run. subst run.
  unfold signals.setup_app_settings, SettingGroupAdmin.transaction_atomic.
  destruct (setup_loop_world create_group create_for_group MODEL_LABELS
              (emit EvBegin w)) as (d & Hworld).
  split; [|split; [|split]].
  - destruct (signals.setup_loop _ _ MODEL_LABELS (emit EvBegin w))
      as [[[]|e] w1]; cbn [snd] in *; subst w1; reflexivity.
  - intros e.
    destruct (signals.setup_loop _ _ MODEL_LABELS (emit EvBegin w))
      as [[[]|e0] w1]; cbn [fst snd] in *; [discriminate|].
    intros _. subst w1. split; [reflexivity|].
    cbn [trace emit with_db]. now rewrite <- app_assoc.
  - intros label e Hin Hbad.
    destruct (setup_loop_unknown_label create_group create_for_group
                MODEL_LABELS label e (emit EvBegin w) Hin Hbad) as (e' & He').
    destruct (signals.setup_loop _ _ MODEL_LABELS (emit EvBegin w))
      as [[[]|e0] w1]; cbn [fst snd] in *; [discriminate|].
    exists e0. split; reflexivity.
  - intros ->. split; reflexivity.
Qed.

Lemma setup_app_settings_all_or_nothing_witness :
  let run :=
    signals.setup_app_settings ["site.branding"; "site.footer"]
      mem_create_group mem_create_for_group empty_world in
  fst (signals.setup_loop mem_create_group mem_create_for_group
         ["site.branding"] empty_world) = Ok tt
  /\ fst run = Raise LookupError
  /\ db (snd run) = db empty_world.
Proof.
  intros run.
  destruct (setup_app_settings_all_or_nothing (H := mem_framework)
              ["site.branding"; "site.footer"] mem_create_group
              mem_create_for_group empty_world) as (_ & Hrollback & _).
  split; [reflexivity|]. split; [reflexivity|].
  apply (Hrollback LookupError). reflexivity.
Defined.

(** ** The group's stamp, and a row that cannot be saved *)

Section WriteOrder.

Context {S : Type} `{Framework S}.


End WriteOrder.

(** X17.  Every write whose row is found stamps the row's group before it
    does anything else: [touch_last_modified] is the first call recorded,
    its exception ends the write with nothing else done, and otherwise the
    groups it returned are the groups of the database afterwards, also when
    the write fails later. *)
Theorem setitem_touches_the_group_first
  {S : Type} `{Framework S} (label a b c : string) (pk : nat)
  (row : ApplicationSetting) (v : PyVal) (w : World S) :
  str_split "."%char label = [a; b; c] ->
  settings_get (str_join "." [a; b]) c (db w) = Ok (pk, row) ->
  let run := AppSettingDict.__setitem__ label v w in
  let stamped := emit (EvTouch (group__group_name row)) w in
  (forall e,
     touch_last_modified (group__group_name row) (groups (db w)) = Raise e ->
     run = (Raise e, stamped))
  /\ (forall gs,
        touch_last_modified (group__group_name row) (groups (db w)) = Ok gs ->
        groups (db (snd run)) = gs
        /\ exists evs,
             trace (snd run)
             = (trace w ++ EvTouch (group__group_name row) :: evs)%list).
Proof.
  intros Hs Hrow run stamped. subst run stamped.
  rewrite (setitem_parts label a b c v w Hs), Hrow. cbv beta iota zeta.
  split.
  - intros e ->. reflexivity.
  - intros gs ->.
    assert (Hsave : forall r (w1 : World S) evs,
               db w1 = with_groups gs (db w) ->
               trace w1 = (trace w ++ EvTouch (group__group_name row) :: evs)%list ->
               groups (db (snd (setting_save pk r w1))) = gs
               /\ exists evs',
                    trace (snd (setting_save pk r w1))
                    = (trace w ++ EvTouch (group__group_name row) :: evs')%list).
    { intros r w1 evs Hdb Htrace. split.
      - destruct (setting_save_db pk r w1) as [-> | ->]; now rewrite Hdb.
      - rewrite setting_save_trace, Htrace.
        exists (evs ++ [EvRowSave pk (row_value r)])%list.
        now rewrite <- app_assoc. }
    assert (Hdel : forall n,
               trace (after_delete n
                        (with_db (with_groups gs (db w))
                           (emit (EvTouch (group__group_name row)) w)))
               = (trace w ++ EvTouch (group__group_name row)
                    :: (if truthy n then [EvDelete n] else []))%list).
    { intros n. rewrite after_delete_trace. cbn [trace with_db emit].
      now rewrite <- app_assoc. }
    destruct (is_new_upload v).
    + destruct (_storage_path_for a b c (attr_name v)) as [path|e].
      * destruct (storage_save path v _) as [[saved|e] s'].
        -- eapply Hsave.
           ++ cbn [db with_storage emit]. now rewrite after_delete_db.
           ++ cbn [trace with_storage emit]. rewrite Hdel.
              rewrite <- app_assoc. reflexivity.
        -- cbn [snd db trace with_storage emit].
           rewrite after_delete_db, Hdel. split; [reflexivity|].
           eexists. rewrite <- app_assoc. reflexivity.
      * cbn [snd]. rewrite after_delete_db, Hdel.
        split; [reflexivity | eauto].
    + destruct (negb (truthy v) && _is_file_setting _ c).
      * eapply Hsave; [now rewrite after_delete_db | apply Hdel].
      * eapply Hsave; [reflexivity|]. cbn [trace with_db emit].
        instantiate (1 := []). reflexivity.
Qed.

Lemma setitem_touches_the_group_first_witness :
  let run := AppSettingDict.__setitem__ "site.branding.logo" upload
               broken_save_world in
  fst run = Raise (OSError "save")
  /\ groups (db (snd run))
     = [ {| group_name := "site.branding"; last_modified := 1 |} ].
Proof.
  intros run.
  destruct (setitem_touches_the_group_first (H := mem_framework)
              "site.branding.logo" "site" "branding" "logo" 1 demo_logo
              upload broken_save_world eq_refl eq_refl) as (_ & Hstamp).
  split; [reflexivity|].
  destruct (Hstamp [ {| group_name := "site.branding"; last_modified := 1 |} ]
              eq_refl) as (Hgroups & _).
  exact Hgroups.
Defined.


